(** * Session manager and chat synchronizer of the academic-companion client

    A shallow embedding of [AuthContext] (AuthProvider: mount effect, [login],
    [logout]) and of [ChatContext] (ChatProvider: [fetchHistory],
    [sendMessage], [clearChat] and the two effects), followed by the
    properties of the specification that concern them.

    The two providers are written in an asynchronous style: a callback runs
    synchronously up to an [await], is suspended there, and is resumed when the
    awaited promise settles.  The embedding keeps that shape.  A callback is a
    term of the inductive type [Async]; [try]/[catch]/[finally] are
    combinators over such terms; the free variables a React callback closes
    over ([token], [historyFetched]) are the parameters of its definition.
    What lies outside the repository is a parameter: the decoder of
    jwt-decode, the rendering of dates, the configured address of the
    backend, the way each request settles, and whether the browser accepts
    a write to the session storage.

    The repository holds three revisions of ChatContext.  The development
    follows the current one (the first in contexts/ChatContext.tsx); module
    [ChatEarlier] records the two earlier ones, and the last section says
    where they agree with it and where they do not. *)

From Stdlib Require Import String Ascii List ZArith Lia Bool Permutation Sorted.
Import ListNotations.
Local Open Scope string_scope.
Local Open Scope Z_scope.

(** ** JavaScript values that matter here *)

(** A value that is not an instance of [Error]: [null], [undefined], or any
    other value, of which only the [message] property matters here ([None]
    when the value has no such property or the property is not a string). *)
Inductive NonError : Type :=
| NullValue
| UndefinedValue
| OtherValue (message : option string).

(** What a [throw] or a rejected promise carries: an instance of [Error] with
    its [message], or some other value ([error instanceof Error] is
    false). *)
Inductive JsThrown : Type :=
| ErrorObject (message : string)
| NotAnError (value : NonError).

(** The way a promise settles (and the way a synchronous call that may throw
    completes). *)
Inductive Settled (A : Type) : Type :=
| Fulfilled (a : A)
| Rejected (e : JsThrown).
Arguments Fulfilled {A} a.
Arguments Rejected {A} e.

(** Truthiness of a [string | null | undefined]: [null], [undefined] and the
    empty string are falsy. *)
Definition truthy (v : option string) : bool :=
  match v with
  | Some s => negb (s =? EmptyString)%string
  | None => false
  end.

(** [String.prototype.includes]. *)
Fixpoint includes (s sub : string) : bool :=
  prefix sub s ||
  match s with
  | EmptyString => false
  | String _ s' => includes s' sub
  end.

(** ** Wire formats (services/api.ts and the context files) *)

Module User.
Record t : Type := mk
  { email : string;
    username : string;
    exp : Z }.
End User.

Module LoginResponse.
Record t : Type := mk
  { access_token : string;
    token_type : string }.
End LoginResponse.

Module ApiResponse.
Record t : Type := mk
  { id : Z;
    question : string;
    answer : string;
    user_id : string;
    created_at : string;
    updated_at : option string }.
End ApiResponse.

(** In [ChatResponse] every field but [question] and [answer] is optional;
    [updated_at] is moreover nullable, hence the two layers of [option]
    (outer: the property is absent, inner: it is [null]). *)
Module ChatResponse.
Record t : Type := mk
  { id : option Z;
    question : string;
    answer : string;
    user_id : option string;
    created_at : option string;
    updated_at : option (option string) }.
End ChatResponse.

Module ChatMessage.
Record t : Type := mk
  { id : option Z;
    question : string;
    answer : string;
    user_id : option string;
    created_at : option string;
    updated_at : option (option string);
    isUser : bool }.
End ChatMessage.

(** The requests of services/api.ts, with the arguments they are called
    with ([sendMessage] passes its token on unchecked, [null] included).
    [RaceSendChatMessage] is
    [Promise.race([sendChatMessage(q, t), timeoutPromise])]: it settles like
    the request when the request settles within 60 s, and is rejected with
    [new Error('Request timeout')] otherwise. *)
Inductive Request : Type :=
| LoginUser (email password : string)
| GetChatHistory (token : string)
| SendChatMessage (question : string) (token : option string)
| RaceSendChatMessage (question : string) (token : option string).

(** The settlement of a pending request, by kind of payload. *)
Inductive Answer : Type :=
| LoginAnswer (x : Settled LoginResponse.t)
| HistoryAnswer (x : Settled (list ApiResponse.t))
| ChatAnswer (x : Settled ChatResponse.t).

(** How the run of a callback on its own ends: it returned, it threw and
    nothing caught the value, it is still waiting for a request to settle,
    or it was handed a settlement of the wrong kind. *)
Inductive Outcome (A : Type) : Type :=
| Completed (a : A)
| Uncaught (e : JsThrown)
| Pending (r : Request)
| Mismatch.
Arguments Completed {A} a.
Arguments Uncaught {A} e.
Arguments Pending {A} r.
Arguments Mismatch {A}.

(** ** Asynchronous callbacks *)

Section AsyncPrograms.

(** The store the callback acts on. *)
Variable St : Type.

Inductive Async (A : Type) : Type :=
| Ret (a : A)
| Throw (e : JsThrown)
| Read (k : St -> Async A)
| Update (f : St -> St) (k : Async A)
| DateNow (k : Z -> Async A)
| AwaitLogin (r : Request) (k : Settled LoginResponse.t -> Async A)
| AwaitHistory (r : Request) (k : Settled (list ApiResponse.t) -> Async A)
| AwaitChat (r : Request) (k : Settled ChatResponse.t -> Async A).

Arguments Ret {A} a.
Arguments Throw {A} e.
Arguments Read {A} k.
Arguments Update {A} f k.
Arguments DateNow {A} k.
Arguments AwaitLogin {A} r k.
Arguments AwaitHistory {A} r k.
Arguments AwaitChat {A} r k.

Fixpoint bind {A B : Type} (p : Async A) (f : A -> Async B) : Async B :=
  match p with
  | Ret a => f a
  | Throw e => Throw e
  | Read k => Read (fun s => bind (k s) f)
  | Update g k => Update g (bind k f)
  | DateNow k => DateNow (fun t => bind (k t) f)
  | AwaitLogin r k => AwaitLogin r (fun x => bind (k x) f)
  | AwaitHistory r k => AwaitHistory r (fun x => bind (k x) f)
  | AwaitChat r k => AwaitChat r (fun x => bind (k x) f)
  end.

(** [try { p } catch (error) { h error }] *)
Fixpoint try_catch {A : Type} (p : Async A) (h : JsThrown -> Async A)
  : Async A :=
  match p with
  | Ret a => Ret a
  | Throw e => h e
  | Read k => Read (fun s => try_catch (k s) h)
  | Update g k => Update g (try_catch k h)
  | DateNow k => DateNow (fun t => try_catch (k t) h)
  | AwaitLogin r k => AwaitLogin r (fun x => try_catch (k x) h)
  | AwaitHistory r k => AwaitHistory r (fun x => try_catch (k x) h)
  | AwaitChat r k => AwaitChat r (fun x => try_catch (k x) h)
  end.

(** [try { p } finally { f }]: [f] runs when [p] returns and when it
    throws; the completion of [p] is kept unless [f] itself throws. *)
Fixpoint try_finally {A : Type} (p : Async A) (f : Async unit) : Async A :=
  match p with
  | Ret a => bind f (fun _ => Ret a)
  | Throw e => bind f (fun _ => Throw e)
  | Read k => Read (fun s => try_finally (k s) f)
  | Update g k => Update g (try_finally k f)
  | DateNow k => DateNow (fun t => try_finally (k t) f)
  | AwaitLogin r k => AwaitLogin r (fun x => try_finally (k x) f)
  | AwaitHistory r k => AwaitHistory r (fun x => try_finally (k x) f)
  | AwaitChat r k => AwaitChat r (fun x => try_finally (k x) f)
  end.

(** A state setter ([setMessages(prev => ...)], [setIsLoading(true)], a
    write to session storage). *)
Definition set (f : St -> St) : Async unit := Update f (Ret tt).

(** A synchronous call that may throw. *)
Definition call {A : Type} (c : Settled A) : Async A :=
  match c with
  | Fulfilled a => Ret a
  | Rejected e => Throw e
  end.

(** *** Running a callback *)

(** Where a callback stands after a synchronous stretch: it has completed
    (returned or thrown), or it is suspended at an [await] on request [r]
    and continues with [k] once the request settles ([k] is undefined,
    [None], on a settlement of the wrong kind of payload). *)
Inductive Status (A : Type) : Type :=
| Returned (a : A)
| Threw (e : JsThrown)
| Suspended (r : Request) (k : Answer -> option (Async A)).

Arguments Returned {A} a.
Arguments Threw {A} e.
Arguments Suspended {A} r k.

(** One synchronous stretch, run at clock reading [now] (milliseconds since
    the epoch) from store [s]: all updates up to the next [await] or to
    completion.  Every stretch of the callbacks below reads the clock at
    most once. *)
Fixpoint run_sync {A : Type} (now : Z) (p : Async A) (s : St)
  : St * Status A :=
  match p with
  | Ret a => (s, Returned a)
  | Throw e => (s, Threw e)
  | Read k => run_sync now (k s) s
  | Update g k => run_sync now k (g s)
  | DateNow k => run_sync now (k now) s
  | AwaitLogin r k =>
      (s, Suspended r (fun ans =>
            match ans with LoginAnswer x => Some (k x) | _ => None end))
  | AwaitHistory r k =>
      (s, Suspended r (fun ans =>
            match ans with HistoryAnswer x => Some (k x) | _ => None end))
  | AwaitChat r k =>
      (s, Suspended r (fun ans =>
            match ans with ChatAnswer x => Some (k x) | _ => None end))
  end.

Record Run (A : Type) : Type := mkRun
  { final : St;
    requests : list Request;
    outcome : Outcome A }.

Arguments mkRun {A} final requests outcome.
Arguments final {A} r.
Arguments requests {A} r.
Arguments outcome {A} r.

(** A callback continued from store [s] and status [st] while other
    callbacks run too.  Each step gives what the others did to the store
    since the callback was suspended, the clock reading at which its pending
    request settles, and the settlement.  [requests] lists the network
    requests the callback met on the way, in order. *)
Fixpoint run_among {A : Type} (s : St) (st : Status A)
         (steps : list ((St -> St) * Z * Answer)) : Run A :=
  match st with
  | Returned a => mkRun s [] (Completed a)
  | Threw e => mkRun s [] (Uncaught e)
  | Suspended r k =>
      match steps with
      | [] => mkRun s [r] (Pending r)
      | (others, t, ans) :: rest =>
          match k ans with
          | None => mkRun s [r] Mismatch
          | Some p =>
              let '(s', st') := run_sync t p (others s) in
              let res := run_among s' st' rest in
              mkRun (final res) (r :: requests res) (outcome res)
          end
      end
  end.

(** The whole run among others: the first stretch at time [now], then
    [run_among]. *)
Definition run_interleaved {A : Type} (now : Z) (p : Async A) (s : St)
           (steps : list ((St -> St) * Z * Answer)) : Run A :=
  let '(s', st) := run_sync now p s in run_among s' st steps.

(** Nothing else touches the store between the stretches. *)
Definition alone (answers : list (Z * Answer))
  : list ((St -> St) * Z * Answer) :=
  map (fun a => (fun s : St => s, fst a, snd a)) answers.

(** A callback run on its own: the first stretch at time [now], then one
    stretch per settlement of [answers]. *)
Definition run {A : Type} (now : Z) (p : Async A) (s : St)
           (answers : list (Z * Answer)) : Run A :=
  run_interleaved now p s (alone answers).

End AsyncPrograms.

Arguments Ret {St A} a.
Arguments Throw {St A} e.
Arguments Read {St A} k.
Arguments Update {St A} f k.
Arguments DateNow {St A} k.
Arguments AwaitLogin {St A} r k.
Arguments AwaitHistory {St A} r k.
Arguments AwaitChat {St A} r k.
Arguments Returned {St A} a.
Arguments Threw {St A} e.
Arguments Suspended {St A} r k.
Arguments mkRun {St A} final requests outcome.
Arguments final {St A} r.
Arguments requests {St A} r.
Arguments outcome {St A} r.
Arguments bind {St A B} p f.
Arguments try_catch {St A} p h.
Arguments try_finally {St A} p f.
Arguments set {St} f.
Arguments call {St A} c.
Arguments run_sync {St A} now p s.
Arguments run_among {St A} s st steps.
Arguments run_interleaved {St A} now p s steps.
Arguments alone {St} answers.
Arguments run {St A} now p s answers.

Declare Scope async_scope.
Delimit Scope async_scope with async.
Notation "x <- p ;; k" := (bind p (fun x => k))
  (at level 61, p at next level, right associativity) : async_scope.
Notation "p ;; k" := (bind p (fun _ => k))
  (at level 61, right associativity) : async_scope.
Local Open Scope async_scope.

(** [String(v)] for a [string | undefined], as string concatenation does. *)
Definition js_string (v : option string) : string :=
  match v with
  | Some s => s
  | None => "undefined"
  end.

(** ** services/api.ts *)

Module Api.

(** The part of an axios error the response interceptor looks at:
    [response] holds the HTTP status when the server answered. *)
Record AxiosError : Type := mkAxiosError
  { code : option string;
    message : string;
    response : option Z }.

(** The rejection handler of [api.interceptors.response.use]: it rewrites
    the message of the error and rejects with it. *)
Definition response_interceptor (error : AxiosError) : AxiosError :=
  match code error with
  | Some "ECONNABORTED" =>
      mkAxiosError (code error)
        "Request timeout. Please check your connection." (response error)
  | Some "ERR_NETWORK" =>
      mkAxiosError (code error)
        "Network Error: Cannot reach the server. Please ensure the backend is running."
        (response error)
  | _ =>
      match response error with
      | None =>
          mkAxiosError (code error)
            "No response from server. Please check if the backend is running."
            None
      | Some _ => error
      end
  end.

(** What a caller of [api.get]/[api.post] catches: an [AxiosError] is an
    instance of [Error]. *)
Definition rejection (error : AxiosError) : JsThrown :=
  ErrorObject (message (response_interceptor error)).

Section Requests.
Variable St : Type.
(** [import.meta.env.VITE_API_BASE_URL] *)
Variable API_BASE_URL : option string.

Definition loginUser (email password : string)
  : Async St LoginResponse.t :=
  if negb (truthy API_BASE_URL) then
    Throw (ErrorObject
             "API_BASE_URL is not configured. Please check your .env file.")
  else
    AwaitLogin (LoginUser email password) (fun response => call response).

Definition getChatHistory (token : string)
  : Async St (list ApiResponse.t) :=
  AwaitHistory (GetChatHistory token) (fun response => call response).

Definition sendChatMessage (question : string) (token : option string)
  : Async St ChatResponse.t :=
  AwaitChat (SendChatMessage question token)
            (fun response => call response).
End Requests.

Arguments loginUser {St} API_BASE_URL email password.
Arguments getChatHistory {St} token.
Arguments sendChatMessage {St} question token.

End Api.

(** ** AuthContext: the session manager *)

Module Auth.

(** The state of [AuthProvider], together with the entry ['token'] of
    [sessionStorage] it reads and writes. *)
Record Session : Type := mkSession
  { user : option User.t;
    token : option string;
    isLoading : bool;
    error : option string;
    sessionStorage : option string }.

(** State on creation: [useState(null)], [useState(null)],
    [useState(true)], [useState(null)]; the storage is whatever the
    browser session holds. *)
Definition initial (stored : option string) : Session :=
  mkSession None None true None stored.

Definition setUser (v : option User.t) : Async Session unit :=
  set (fun s => mkSession v (token s) (isLoading s) (error s)
                          (sessionStorage s)).
Definition setToken (v : option string) : Async Session unit :=
  set (fun s => mkSession (user s) v (isLoading s) (error s)
                          (sessionStorage s)).
Definition setIsLoading (v : bool) : Async Session unit :=
  set (fun s => mkSession (user s) (token s) v (error s)
                          (sessionStorage s)).
Definition setError (v : option string) : Async Session unit :=
  set (fun s => mkSession (user s) (token s) (isLoading s) v
                          (sessionStorage s)).
Definition sessionStorage_removeItem : Async Session unit :=
  set (fun s => mkSession (user s) (token s) (isLoading s) (error s) None).

Section Provider.

(** [jwtDecode<User>] of the jwt-decode package: the decoded payload, or
    the [InvalidTokenError] it throws. *)
Variable jwtDecode : string -> Settled User.t.
(** [import.meta.env.VITE_API_BASE_URL] *)
Variable VITE_API_BASE_URL : option string.
(** What [sessionStorage.setItem('token', v)] throws, if it throws: the
    browser refuses a write that exceeds the quota of the storage, with a
    [QuotaExceededError], and the entry stays as it was.  Of the methods of
    [Storage] used here it is the only one that throws. *)
Variable setItem_throws : string -> option JsThrown.

Definition sessionStorage_setItem (v : string) : Async Session unit :=
  match setItem_throws v with
  | Some thrown => Throw thrown
  | None =>
      set (fun s => mkSession (user s) (token s) (isLoading s) (error s)
                              (Some v))
  end.

(** The effect run once on mount: recovery of a stored session. *)
Definition mount_effect : Async Session unit :=
  Read (fun s =>
    let savedToken := sessionStorage s in
    (match savedToken with
     | Some saved =>
         if truthy savedToken then
           try_catch
             (decoded <- call (jwtDecode saved) ;;
              DateNow (fun now =>
                if User.exp decoded * 1000 >? now then
                  setToken (Some saved) ;;
                  setUser (Some decoded)
                else
                  sessionStorage_removeItem))
             (fun _ => sessionStorage_removeItem)
         else Ret tt
     | None => Ret tt
     end) ;;
    setIsLoading false).

(** The [catch] block of [login]: the message shown for a caught
    value. *)
Definition login_error_message (caught : JsThrown) : string :=
  match caught with
  | ErrorObject message =>
      if includes message "Network Error" || includes message "ERR_NETWORK"
      then "Cannot connect to server. Please ensure the backend API is running at "
           ++ js_string VITE_API_BASE_URL
      else if includes message "401" || includes message "Unauthorized"
      then "Invalid credentials. Please check your email and password."
      else if includes message "timeout"
      then "Request timeout. Please check your internet connection and try again."
      else "Login failed: " ++ message
  | NotAnError _ => "An unexpected error occurred during login."
  end.

Definition login (email password : string) : Async Session bool :=
  try_finally
    (try_catch
       (setIsLoading true ;;
        setError None ;;
        let apiBaseUrl := VITE_API_BASE_URL in
        if negb (truthy apiBaseUrl) then
          setError
            (Some "API configuration missing. Please check your .env file.") ;;
          Ret false
        else
          response <- Api.loginUser VITE_API_BASE_URL email password ;;
          let access_token := LoginResponse.access_token response in
          decoded <- call (jwtDecode access_token) ;;
          setToken (Some access_token) ;;
          setUser (Some decoded) ;;
          sessionStorage_setItem access_token ;;
          Ret true)
       (fun caught =>
          setError (Some (login_error_message caught)) ;;
          Ret false))
    (setIsLoading false).

Definition logout : Async Session unit :=
  setUser None ;;
  setToken None ;;
  setError None ;;
  sessionStorage_removeItem.

End Provider.

End Auth.

(** ** ChatContext: the chat synchronizer *)

(** [Array.prototype.sort(compareFn)]: a stable sort; an element goes before
    the first element it does not compare greater than. *)
Section ArraySort.
Variable A : Type.
Variable compareFn : A -> A -> Z.

Fixpoint sort_insert (x : A) (l : list A) : list A :=
  match l with
  | [] => [x]
  | y :: l' =>
      if compareFn x y <=? 0 then x :: y :: l' else y :: sort_insert x l'
  end.

Definition Array_sort (l : list A) : list A :=
  fold_right sort_insert [] l.
End ArraySort.

Arguments sort_insert {A} compareFn x l.
Arguments Array_sort {A} compareFn l.

Module Chat.

(** The state of [ChatProvider]. *)
Record State : Type := mkState
  { messages : list ChatMessage.t;
    isLoading : bool;
    historyFetched : bool }.

(** State on creation: [useState([])], [useState(false)],
    [useState(false)]. *)
Definition initial : State := mkState [] false false.

(** [setMessages] is used both with a value and with an updater
    [prev => ...]; the value form is the constant updater. *)
Definition setMessages (f : list ChatMessage.t -> list ChatMessage.t)
  : Async State unit :=
  set (fun s => mkState (f (messages s)) (isLoading s) (historyFetched s)).
Definition setIsLoading (v : bool) : Async State unit :=
  set (fun s => mkState (messages s) v (historyFetched s)).
Definition setHistoryFetched (v : bool) : Async State unit :=
  set (fun s => mkState (messages s) (isLoading s) v).

(** The two entries a history item is turned into by the [flatMap] of
    [fetchHistory]. *)
Definition history_pair (item : ApiResponse.t) : list ChatMessage.t :=
  [ {| ChatMessage.id := Some (ApiResponse.id item);
       ChatMessage.question := ApiResponse.question item;
       ChatMessage.answer := ApiResponse.question item;
       ChatMessage.user_id := Some (ApiResponse.user_id item);
       ChatMessage.created_at := Some (ApiResponse.created_at item);
       ChatMessage.updated_at := Some (ApiResponse.updated_at item);
       ChatMessage.isUser := true |};
    {| ChatMessage.id := Some (ApiResponse.id item);
       ChatMessage.question := ApiResponse.question item;
       ChatMessage.answer := ApiResponse.answer item;
       ChatMessage.user_id := Some (ApiResponse.user_id item);
       ChatMessage.created_at := Some (ApiResponse.created_at item);
       ChatMessage.updated_at := Some (ApiResponse.updated_at item);
       ChatMessage.isUser := false |} ].

Definition formattedHistory (history : list ApiResponse.t)
  : list ChatMessage.t :=
  flat_map history_pair
    (Array_sort (fun a b => ApiResponse.id a - ApiResponse.id b) history).

(** [fetchHistory], as created by a render in which [useAuth()] gave
    [token] and the state variable [historyFetched] had the given value. *)
Definition fetchHistory (token : option string) (historyFetched : bool)
  : Async State unit :=
  match token with
  | None => Ret tt
  | Some held =>
      if negb (truthy token) || historyFetched then Ret tt
      else
        try_finally
          (try_catch
             (setIsLoading true ;;
              history <- Api.getChatHistory held ;;
              setMessages (fun _ => formattedHistory history) ;;
              setHistoryFetched true)
             (fun _ =>
                setMessages (fun _ => []) ;;
                setHistoryFetched true))
          (setIsLoading false)
  end.

Definition timeout_notice : string :=
  "The response is taking longer than expected. Please wait while I process your request...".

Definition failure_notice : string :=
  "I'm sorry, I'm currently unable to process your request. Please try again later.".

(** [error instanceof Error && error.message === 'Request timeout'] *)
Definition is_timeout (caught : JsThrown) : bool :=
  match caught with
  | ErrorObject message => (message =? "Request timeout")%string
  | NotAnError _ => false
  end.

Section Provider.

Local Open Scope list_scope.

(** [new Date(ms).toISOString()] *)
Variable toISOString : Z -> string.

Definition userMessage (message : string) (now : Z) : ChatMessage.t :=
  {| ChatMessage.id := None;
     ChatMessage.question := message;
     ChatMessage.answer := message;
     ChatMessage.user_id := None;
     ChatMessage.created_at := Some (toISOString now);
     ChatMessage.updated_at := None;
     ChatMessage.isUser := true |}.

(** [created_at: response.created_at || new Date().toISOString()] *)
Definition botMessage (message : string) (response : ChatResponse.t)
           (now : Z) : ChatMessage.t :=
  {| ChatMessage.id := ChatResponse.id response;
     ChatMessage.question := message;
     ChatMessage.answer := ChatResponse.answer response;
     ChatMessage.user_id := ChatResponse.user_id response;
     ChatMessage.created_at :=
       Some (if truthy (ChatResponse.created_at response)
             then js_string (ChatResponse.created_at response)
             else toISOString now);
     ChatMessage.updated_at := ChatResponse.updated_at response;
     ChatMessage.isUser := false |}.

Definition timeoutMessage (message : string) (now : Z) : ChatMessage.t :=
  {| ChatMessage.id := None;
     ChatMessage.question := message;
     ChatMessage.answer := timeout_notice;
     ChatMessage.user_id := None;
     ChatMessage.created_at := Some (toISOString now);
     ChatMessage.updated_at := None;
     ChatMessage.isUser := false |}.

Definition errorMessage (message : string) (now : Z) : ChatMessage.t :=
  {| ChatMessage.id := None;
     ChatMessage.question := message;
     ChatMessage.answer := failure_notice;
     ChatMessage.user_id := None;
     ChatMessage.created_at := Some (toISOString now);
     ChatMessage.updated_at := None;
     ChatMessage.isUser := false |}.

(** The updater of the two [setMessages(prevMessages =>
    prevMessages.map(...))] calls of the continuation. *)
Definition replace_placeholder (by_message : ChatMessage.t)
           (prevMessages : list ChatMessage.t) : list ChatMessage.t :=
  map (fun msg =>
         if (ChatMessage.answer msg =? timeout_notice)%string
         then by_message else msg)
      prevMessages.

(** [Promise.race([sendChatMessage(message, token!), timeoutPromise])];
    [token!] only silences the type checker: a [null] token is passed
    on as it is. *)
Definition race_sendChatMessage (message : string)
           (token : option string) : Async State ChatResponse.t :=
  AwaitChat (RaceSendChatMessage message token)
            (fun response => call response).

(** [sendMessage], as created by a render in which [useAuth()] gave
    [token]. *)
Definition sendMessage (token : option string) (message : string)
  : Async State unit :=
  DateNow (fun now =>
    setMessages (fun prevMessages =>
                   prevMessages ++ [userMessage message now]) ;;
    setIsLoading true ;;
    try_finally
      (try_catch
         (response <- race_sendChatMessage message token ;;
          DateNow (fun now =>
            setMessages (fun prevMessages =>
              prevMessages ++ [botMessage message response now])))
         (fun caught =>
            if is_timeout caught then
              DateNow (fun now =>
                setMessages (fun prevMessages =>
                  prevMessages ++ [timeoutMessage message now]) ;;
                try_catch
                  (response <-
                     Api.sendChatMessage message token ;;
                   DateNow (fun now =>
                     setMessages
                       (replace_placeholder
                          (botMessage message response now))))
                  (fun _ =>
                     DateNow (fun now =>
                       setMessages
                         (replace_placeholder
                            (errorMessage message now)))))
            else
              DateNow (fun now =>
                setMessages (fun prevMessages =>
                  prevMessages ++ [errorMessage message now]))))
      (setIsLoading false)).

Definition clearChat : Async State unit :=
  setMessages (fun _ => []).

(** The effect with dependencies [user, token, historyFetched,
    fetchHistory]: it starts [fetchHistory()] and does not wait for
    it. *)
Definition fetch_effect (user : option User.t) (token : option string)
           (historyFetched : bool) : Async State unit :=
  match user with
  | Some _ =>
      if truthy token && negb historyFetched
      then fetchHistory token historyFetched
      else Ret tt
  | None => Ret tt
  end.

(** The effect with dependency [user]: reset of the chat state on
    logout. *)
Definition reset_effect (user : option User.t) : Async State unit :=
  match user with
  | None =>
      setMessages (fun _ => []) ;;
      setHistoryFetched false
  | Some _ => Ret tt
  end.

End Provider.

End Chat.

(** ** The two earlier revisions of ChatContext

    The repository keeps, next to the current ChatContext, two earlier
    revisions of it.  They share [sendMessage]; they differ from the current
    one in the entries they build and in what [fetchHistory] does. *)

Module ChatEarlier.

(** The revision that sorts and pairs: the question entry has an empty
    [answer]. *)
Definition history_pair (item : ApiResponse.t) : list ChatMessage.t :=
  [ {| ChatMessage.id := Some (ApiResponse.id item);
       ChatMessage.question := ApiResponse.question item;
       ChatMessage.answer := EmptyString;
       ChatMessage.user_id := Some (ApiResponse.user_id item);
       ChatMessage.created_at := Some (ApiResponse.created_at item);
       ChatMessage.updated_at := Some (ApiResponse.updated_at item);
       ChatMessage.isUser := true |};
    {| ChatMessage.id := Some (ApiResponse.id item);
       ChatMessage.question := ApiResponse.question item;
       ChatMessage.answer := ApiResponse.answer item;
       ChatMessage.user_id := Some (ApiResponse.user_id item);
       ChatMessage.created_at := Some (ApiResponse.created_at item);
       ChatMessage.updated_at := Some (ApiResponse.updated_at item);
       ChatMessage.isUser := false |} ].

Definition formattedHistory (history : list ApiResponse.t)
  : list ChatMessage.t :=
  flat_map history_pair
    (Array_sort (fun a b => ApiResponse.id a - ApiResponse.id b) history).

Definition fetchHistory (token : option string) (historyFetched : bool)
  : Async Chat.State unit :=
  match token with
  | None => Ret tt
  | Some held =>
      if negb (truthy token) || historyFetched then Ret tt
      else
        try_finally
          (try_catch
             (Chat.setIsLoading true ;;
              history <- Api.getChatHistory held ;;
              Chat.setMessages (fun _ => formattedHistory history) ;;
              Chat.setHistoryFetched true)
             (fun _ =>
                Chat.setMessages (fun _ => []) ;;
                Chat.setHistoryFetched true))
          (Chat.setIsLoading false)
  end.

(** The first revision: one entry per item, in the order received, all with
    [isUser: false]; on failure, two canned entries. *)
Definition dummyMessages : list ChatMessage.t :=
  [ {| ChatMessage.id := Some 1;
       ChatMessage.question := "What are the mid-term exam dates?";
       ChatMessage.answer :=
         "According to the academic calendar, the Mid Term Examination for Summer 2025 is scheduled to take place from Monday, August 04 to Sunday, August 10, 2025.";
       ChatMessage.user_id := None;
       ChatMessage.created_at := None;
       ChatMessage.updated_at := None;
       ChatMessage.isUser := true |};
    {| ChatMessage.id := Some 1;
       ChatMessage.question := "What are the mid-term exam dates?";
       ChatMessage.answer :=
         "According to the academic calendar, the Mid Term Examination for Summer 2025 is scheduled to take place from Monday, August 04 to Sunday, August 10, 2025.";
       ChatMessage.user_id := None;
       ChatMessage.created_at := None;
       ChatMessage.updated_at := None;
       ChatMessage.isUser := false |} ].

Definition first_formattedHistory (history : list ApiResponse.t)
  : list ChatMessage.t :=
  map (fun item =>
         {| ChatMessage.id := Some (ApiResponse.id item);
            ChatMessage.question := ApiResponse.question item;
            ChatMessage.answer := ApiResponse.answer item;
            ChatMessage.user_id := Some (ApiResponse.user_id item);
            ChatMessage.created_at := Some (ApiResponse.created_at item);
            ChatMessage.updated_at := Some (ApiResponse.updated_at item);
            ChatMessage.isUser := false |})
      history.

Definition first_fetchHistory (token : option string) (historyFetched : bool)
  : Async Chat.State unit :=
  match token with
  | None => Ret tt
  | Some held =>
      if negb (truthy token) || historyFetched then Ret tt
      else
        try_finally
          (try_catch
             (Chat.setIsLoading true ;;
              history <- Api.getChatHistory held ;;
              Chat.setMessages (fun _ => first_formattedHistory history) ;;
              Chat.setHistoryFetched true)
             (fun _ =>
                Chat.setMessages (fun _ => dummyMessages) ;;
                Chat.setHistoryFetched true))
          (Chat.setIsLoading false)
  end.

Section Provider.

Local Open Scope list_scope.

Variable toISOString : Z -> string.

Definition userMessage (message : string) (now : Z) : ChatMessage.t :=
  {| ChatMessage.id := None;
     ChatMessage.question := message;
     ChatMessage.answer := EmptyString;
     ChatMessage.user_id := None;
     ChatMessage.created_at := Some (toISOString now);
     ChatMessage.updated_at := None;
     ChatMessage.isUser := true |}.

(** [{...response, isUser: false, created_at: new Date().toISOString()}] *)
Definition botMessage (response : ChatResponse.t) (now : Z)
  : ChatMessage.t :=
  {| ChatMessage.id := ChatResponse.id response;
     ChatMessage.question := ChatResponse.question response;
     ChatMessage.answer := ChatResponse.answer response;
     ChatMessage.user_id := ChatResponse.user_id response;
     ChatMessage.created_at := Some (toISOString now);
     ChatMessage.updated_at := ChatResponse.updated_at response;
     ChatMessage.isUser := false |}.

(** [error.message === 'Request timeout'], with no [instanceof] test: any
    value whose [message] is that string passes. *)
Definition is_timeout (caught : JsThrown) : bool :=
  match caught with
  | ErrorObject message => (message =? "Request timeout")%string
  | NotAnError (OtherValue (Some message)) =>
      (message =? "Request timeout")%string
  | NotAnError _ => false
  end.

(** Both earlier revisions.  The [catch] block reads [error.message] with no
    [instanceof] test: that read throws a [TypeError] on [null] and on
    [undefined], and gives the property, or [undefined], on any other
    value. *)
Definition sendMessage (token : option string) (message : string)
  : Async Chat.State unit :=
  DateNow (fun now =>
    Chat.setMessages (fun prev => prev ++ [userMessage message now]) ;;
    Chat.setIsLoading true ;;
    try_finally
      (try_catch
         (response <- Chat.race_sendChatMessage message token ;;
          DateNow (fun now =>
            Chat.setMessages (fun prev => prev ++ [botMessage response now])))
         (fun caught =>
            match caught with
            | NotAnError NullValue =>
                Throw (ErrorObject
                  "Cannot read properties of null (reading 'message')")
            | NotAnError UndefinedValue =>
                Throw (ErrorObject
                  "Cannot read properties of undefined (reading 'message')")
            | _ =>
                if is_timeout caught then
                  DateNow (fun now =>
                    Chat.setMessages (fun prev =>
                      prev ++ [Chat.timeoutMessage toISOString message now]) ;;
                    try_catch
                      (response <-
                         Api.sendChatMessage message token ;;
                       DateNow (fun now =>
                         Chat.setMessages
                           (Chat.replace_placeholder
                              (botMessage response now))))
                      (fun _ =>
                         DateNow (fun now =>
                           Chat.setMessages
                             (Chat.replace_placeholder
                                (Chat.errorMessage toISOString message
                                                   now)))))
                else
                  DateNow (fun now =>
                    Chat.setMessages (fun prev =>
                      prev ++ [Chat.errorMessage toISOString message now]))
            end))
      (Chat.setIsLoading false)).

End Provider.

End ChatEarlier.

(** * Vocabulary of the properties *)

(** Comparison of two elements by a numeric key, as in
    [(a, b) => a.id - b.id], and the order it sorts by. *)
Definition compare_by {A : Type} (key : A -> Z) (a b : A) : Z :=
  key a - key b.
Definition le_by {A : Type} (key : A -> Z) (a b : A) : Prop :=
  key a <= key b.

(** What ChatPopup shows of an entry: the side it is rendered on and the
    text of its bubble ([isUserMessage ? message.question :
    message.answer]). *)
Definition shown (m : ChatMessage.t) : bool * string :=
  (ChatMessage.isUser m,
   if ChatMessage.isUser m then ChatMessage.question m
   else ChatMessage.answer m).

(** The request a callback is waiting for, if any. *)
Definition awaited {St A : Type} (st : Status St A) : list Request :=
  match st with
  | Suspended r _ => [r]
  | _ => []
  end.

(** [fetchHistory()] called several times in a row with the same token,
    each call made through the callback of the latest render (so with the
    current value of [historyFetched]) once the previous call has run to
    completion.  A call is described by the clock readings of its two
    stretches and by the way its history request settles.  The result is the
    final state and the requests issued. *)
Fixpoint fetchHistory_in_turn (token : option string) (s : Chat.State)
         (calls : list (Z * Z * Settled (list ApiResponse.t)))
  : Chat.State * list Request :=
  match calls with
  | [] => (s, [])
  | (now, t, x) :: rest =>
      let r := run now (Chat.fetchHistory token (Chat.historyFetched s)) s
                   [(t, HistoryAnswer x)] in
      let '(s', issued) := fetchHistory_in_turn token (final r) rest in
      (s', (requests r ++ issued)%list)
  end.

(** The race of [sendMessage] lost to the 60-second timer. *)
Definition timed_out : Answer :=
  ChatAnswer (Rejected (ErrorObject "Request timeout")).

(** [Promise.race] settles as the timer does when the timer is first; what
    the request itself [eventually] settles to reaches no one, since nothing
    waits for that promise any more. *)
Definition race_lost (eventually : Settled ChatResponse.t) : Answer :=
  timed_out.

(** Whether a settlement is the rejection of the timer. *)
Definition lost_to_timer (x : Settled ChatResponse.t) : bool :=
  match x with
  | Fulfilled _ => false
  | Rejected caught => Chat.is_timeout caught
  end.

(** The message [sendMessage] makes of a settled request at clock reading
    [t]: the bot message of the response, or the failure notice. *)
Definition settled_message (toISOString : Z -> string) (message : string)
           (x : Settled ChatResponse.t) (t : Z) : ChatMessage.t :=
  match x with
  | Fulfilled response => Chat.botMessage toISOString message response t
  | Rejected _ => Chat.errorMessage toISOString message t
  end.

(** The entries that the replacement of the continuation matches. *)
Definition has_notice_text (m : ChatMessage.t) : bool :=
  (ChatMessage.answer m =? Chat.timeout_notice)%string.

(** A rendering of the clock for the closed examples (the properties hold
    for every rendering). *)
Definition sample_toISOString (ms : Z) : string :=
  if ms <? 60000 then "2025-08-04T09:00:00.000Z"
  else if ms <? 70000 then "2025-08-04T09:01:00.000Z"
  else "2025-08-04T09:01:10.000Z".

(** The state a [sendMessage] call leaves when it is suspended at the race,
    started at clock reading [now] from state [s]. *)
Definition at_race (toISOString : Z -> string) (message : string) (now : Z)
           (s : Chat.State) : Chat.State :=
  Chat.mkState
    (Chat.messages s ++ [Chat.userMessage toISOString message now])
    true (Chat.historyFetched s).

(** The state the timeout stretch, run at clock reading [t1], makes of the
    state [s1] it finds. *)
Definition at_retry (toISOString : Z -> string) (message : string) (t1 : Z)
           (s1 : Chat.State) : Chat.State :=
  Chat.mkState
    (Chat.messages s1 ++ [Chat.timeoutMessage toISOString message t1])
    (Chat.isLoading s1) (Chat.historyFetched s1).

(** A stand-in for [jwtDecode] in the closed examples (the properties hold
    for every decoder): two tokens it decodes, one with an expiry far
    ahead and one with an expiry long past; on anything else it throws as
    jwt-decode does on a string with no dot. *)
Definition sample_jwtDecode (t : string) : Settled User.t :=
  if (t =? "header.fresh.signature")%string then
    Fulfilled (User.mk "student@example.edu" "student" 4102444800)
  else if (t =? "header.stale.signature")%string then
    Fulfilled (User.mk "student@example.edu" "student" 946684800)
  else
    Rejected (ErrorObject "Invalid token specified: missing part #2").

(** A session storage that takes every write, and one that is full. *)
Definition storage_with_room (v : string) : option JsThrown := None.
Definition storage_full (v : string) : option JsThrown :=
  Some (ErrorObject
          "Failed to execute 'setItem' on 'Storage': Setting the value of 'token' exceeded the quota.").

(** The axios error of a response with status 401. *)
Definition unauthorized : Api.AxiosError :=
  Api.mkAxiosError (Some "ERR_BAD_REQUEST")
                   "Request failed with status code 401" (Some 401).

(** ** The callers: ChatPopup and App *)

(** A callback on a part of a store, run on the whole store: [get] reads the
    part and [put] writes it back. *)
Fixpoint zoom {S S' A : Type} (get : S' -> S) (put : S -> S' -> S')
         (p : Async S A) : Async S' A :=
  match p with
  | Ret a => Ret a
  | Throw e => Throw e
  | Read k => Read (fun s' => zoom get put (k (get s')))
  | Update f k => Update (fun s' => put (f (get s')) s') (zoom get put k)
  | DateNow k => DateNow (fun t => zoom get put (k t))
  | AwaitLogin r k => AwaitLogin r (fun x => zoom get put (k x))
  | AwaitHistory r k => AwaitHistory r (fun x => zoom get put (k x))
  | AwaitChat r k => AwaitChat r (fun x => zoom get put (k x))
  end.

Module ChatPopup.

(** The state of the popup: what [useChat()] gives it, and its own
    [inputMessage]. *)
Record State : Type := mkState
  { chat : Chat.State;
    inputMessage : string }.

Definition setInputMessage (v : string) : Async State unit :=
  set (fun s => mkState (chat s) v).

(** A callback of the chat context, called from the popup. *)
Definition in_chat {A : Type} (p : Async Chat.State A) : Async State A :=
  zoom chat (fun c s => mkState c (inputMessage s)) p.

Section Component.

(** [String.prototype.trim] *)
Variable trim : string -> string.
(** [sendMessage] and [clearChat] as [useChat()] gives them. *)
Variable sendMessage : string -> Async Chat.State unit.
Variable clearChat : Async Chat.State unit.

(** [handleSubmit], as created by a render in which the input held
    [inputMessage] and the context gave [isLoading]. *)
Definition handleSubmit (inputMessage : string) (isLoading : bool)
  : Async State unit :=
  if negb (truthy (Some (trim inputMessage))) || isLoading then Ret tt
  else
    let message := trim inputMessage in
    setInputMessage EmptyString ;;
    in_chat (sendMessage message).

Definition handleReset : Async State unit :=
  in_chat clearChat.

End Component.

(** The [key] of the element rendered for [message] at position [index]:
    [`${message.id || index}-${isUserMessage ? 'user' : 'bot'}`].  The
    number and the side stand for the string, which they determine and
    which determines them; an [id] of 0 is falsy, as a missing one. *)
Definition key (message : ChatMessage.t) (index : nat) : Z * bool :=
  (match ChatMessage.id message with
   | Some n => if n =? 0 then Z.of_nat index else n
   | None => Z.of_nat index
   end,
   ChatMessage.isUser message).

(** The keys of [messages.map((message, index) => ...)], the first element
    being at position [index]. *)
Fixpoint keys_from (index : nat) (messages : list ChatMessage.t)
  : list (Z * bool) :=
  match messages with
  | [] => []
  | message :: rest => key message index :: keys_from (S index) rest
  end.

Definition keys (messages : list ChatMessage.t) : list (Z * bool) :=
  keys_from 0 messages.

End ChatPopup.

Module App.

(** What [AppContent] returns. *)
Inductive Screen : Type :=
| Spinner
| LoginScreen
| LandingInChatProvider.

(** [AppContent], for the [user] and [isLoading] that [useAuth()] gives. *)
Definition AppContent (user : option User.t) (isLoading : bool) : Screen :=
  if isLoading then Spinner
  else
    match user with
    | None => LoginScreen
    | Some _ => LandingInChatProvider
    end.

Definition screen (s : Auth.Session) : Screen :=
  AppContent (Auth.user s) (Auth.isLoading s).

End App.

(** ** Further vocabulary *)




(** The answer is a token that decodes, and the storage refuses to keep
    it. *)
Definition write_refused (jwtDecode : string -> Settled User.t)
           (base : option string) (writes : string -> option JsThrown)
           (x : Settled LoginResponse.t) : Prop :=
  truthy base = true /\
  exists response u thrown,
    x = Fulfilled response /\
    jwtDecode (LoginResponse.access_token response) = Fulfilled u /\
    writes (LoginResponse.access_token response) = Some thrown.


(** What [clearChat] does to the state, as a step of another callback's
    run. *)
Definition cleared (s : Chat.State) : Chat.State :=
  final (run 0 Chat.clearChat s []).

(** * Properties *)

(** ** Sorting by a numeric key *)

Section ArraySortFacts.
Variable A : Type.
Variable key : A -> Z.

Lemma sort_insert_Permutation (x : A) (l : list A) :
  Permutation (x :: l) (sort_insert (compare_by key) x l).
Proof.
  induction l as [|y l IH]; simpl.
  - apply Permutation_refl.
  - destruct ((compare_by key) x y <=? 0).
    + apply Permutation_refl.
    + eapply perm_trans; [apply perm_swap|].
      now apply perm_skip.
Qed.

Lemma Array_sort_Permutation (l : list A) :
  Permutation l (Array_sort (compare_by key) l).
Proof.
  induction l as [|x l IH]; simpl.
  - constructor.
  - eapply perm_trans; [apply perm_skip, IH|].
    apply sort_insert_Permutation.
Qed.

Lemma sort_insert_sorted (x : A) (l : list A) :
  StronglySorted (le_by key) l ->
  StronglySorted (le_by key) (sort_insert (compare_by key) x l).
Proof.
  induction 1 as [|y l Hs IH Hall]; simpl.
  - repeat constructor.
  - destruct ((compare_by key) x y <=? 0) eqn:E; unfold compare_by in E.
    + apply Z.leb_le in E.
      constructor; [now constructor|].
      constructor; [unfold le_by; lia|].
      eapply Forall_impl; [|exact Hall].
      unfold le_by; intros; lia.
    + apply Z.leb_gt in E.
      constructor; [exact IH|].
      eapply Permutation_Forall; [apply sort_insert_Permutation|].
      constructor; [unfold le_by; lia|exact Hall].
Qed.

Lemma Array_sort_sorted (l : list A) :
  StronglySorted (le_by key) (Array_sort (compare_by key) l).
Proof.
  induction l as [|x l IH]; simpl.
  - constructor.
  - now apply sort_insert_sorted.
Qed.

(** The sort is stable: the elements with a given key come out in the order
    they went in. *)
Lemma sort_insert_keeps_order (k : Z) (x : A) (l : list A) :
  filter (fun y => key y =? k) (sort_insert (compare_by key) x l) =
  filter (fun y => key y =? k) (x :: l).
Proof.
  induction l as [|y l IH]; [reflexivity|].
  cbn [sort_insert].
  destruct (compare_by key x y <=? 0) eqn:E; [reflexivity|].
  apply Z.leb_gt in E. unfold compare_by in E.
  cbn [filter] in *. rewrite IH.
  destruct (Z.eqb_spec (key x) k), (Z.eqb_spec (key y) k);
    try reflexivity; lia.
Qed.

Lemma Array_sort_stable (k : Z) (l : list A) :
  filter (fun y => key y =? k) (Array_sort (compare_by key) l) =
  filter (fun y => key y =? k) l.
Proof.
  induction l as [|x l IH]; [reflexivity|].
  cbn [Array_sort fold_right].
  rewrite sort_insert_keeps_order. cbn [filter].
  fold (Array_sort (compare_by key) l). now rewrite IH.
Qed.

(** Two sorted arrangements of the same elements coincide when no two
    elements share a key. *)
Lemma sorted_arrangement_unique (l1 : list A) :
  forall l2,
    Permutation l1 l2 -> NoDup (map key l1) ->
    StronglySorted (le_by key) l1 -> StronglySorted (le_by key) l2 ->
    l1 = l2.
Proof.
  induction l1 as [|a l1 IH]; intros l2 HP HN H1 H2.
  - apply Permutation_nil in HP. now subst.
  - destruct l2 as [|b l2].
    { apply Permutation_sym, Permutation_nil in HP. discriminate. }
    inversion H1 as [|? ? Hs1 Ha]; subst.
    inversion H2 as [|? ? Hs2 Hb]; subst.
    assert (Hab : a = b).
    { assert (Hin_b : In b (a :: l1))
        by (eapply Permutation_in; [apply Permutation_sym, HP|now left]).
      assert (Hin_a : In a (b :: l2))
        by (eapply Permutation_in; [exact HP|now left]).
      destruct Hin_b as [|Hin_b]; [assumption|].
      destruct Hin_a as [|Hin_a]; [now symmetry|].
      exfalso.
      rewrite Forall_forall in Ha, Hb.
      pose proof (Ha _ Hin_b) as L1. pose proof (Hb _ Hin_a) as L2.
      unfold le_by in L1, L2.
      inversion HN as [|? ? Hnot _]; subst.
      apply Hnot. replace (key a) with (key b) by lia.
      now apply in_map. }
    subst b. f_equal.
    apply IH; try assumption.
    + now apply Permutation_cons_inv with (a := a).
    + now inversion HN.
Qed.

(** With distinct keys the result does not depend on the order of the
    input. *)
Lemma Array_sort_any_order (l l' : list A) :
  Permutation l l' -> NoDup (map key l) ->
  Array_sort (compare_by key) l = Array_sort (compare_by key) l'.
Proof.
  intros HP HN.
  apply sorted_arrangement_unique.
  - eapply perm_trans; [apply Permutation_sym, Array_sort_Permutation|].
    eapply perm_trans; [exact HP|apply Array_sort_Permutation].
  - eapply Permutation_NoDup; [|exact HN].
    apply Permutation_map, Array_sort_Permutation.
  - apply Array_sort_sorted.
  - apply Array_sort_sorted.
Qed.

End ArraySortFacts.

(** ** The chat synchronizer *)

Lemma truthy_Some (s : string) : s <> EmptyString -> truthy (Some s) = true.
Proof.
  intros H. simpl. destruct (String.eqb_spec s EmptyString); [contradiction|reflexivity].
Qed.

Lemma formattedHistory_sorted_pairs (history : list ApiResponse.t) :
  exists sorted,
    Permutation history sorted /\
    StronglySorted (le_by ApiResponse.id) sorted /\
    Chat.formattedHistory history = flat_map Chat.history_pair sorted.
Proof.
  exists (Array_sort (fun a b => ApiResponse.id a - ApiResponse.id b) history).
  split; [apply Array_sort_Permutation with (key := ApiResponse.id)|].
  split; [apply Array_sort_sorted with (key := ApiResponse.id)|reflexivity].
Qed.

Lemma shown_history_pairs (l : list ApiResponse.t) :
  map shown (flat_map Chat.history_pair l) =
  flat_map (fun item => [(true, ApiResponse.question item);
                         (false, ApiResponse.answer item)]) l.
Proof.
  induction l as [|item l IH]; simpl; [reflexivity|].
  now rewrite IH.
Qed.

(** A successful [fetchHistory] run on its own, from any state. *)
Lemma fetchHistory_fulfilled (held : string) (s : Chat.State) (now t : Z)
      (history : list ApiResponse.t) :
  held <> EmptyString ->
  run now (Chat.fetchHistory (Some held) false) s
      [(t, HistoryAnswer (Fulfilled history))] =
  mkRun (Chat.mkState (Chat.formattedHistory history) false true)
        [GetChatHistory held] (Completed tt).
Proof.
  intros H. unfold Chat.fetchHistory.
  rewrite truthy_Some by assumption. reflexivity.
Qed.

(** C1.  History pairing.  When [fetchHistory()] is called with a credential
    and the flag down and the history request is fulfilled with [history]
    (in whatever order), the call completes and the transcript is replaced
    by the items in ascending order of [id], each item turned into two
    consecutive entries: one with [isUser = true] showing the question of
    the item, then one with [isUser = false] showing its answer.  When the
    ids are pairwise distinct the transcript is the same for every order in
    which the backend lists the items.  In particular the items
    [{id:1, A, B}] and [{id:3, C, D}], in either order, give the entries
    [(user, A); (bot, B); (user, C); (bot, D)]. *)
Theorem history_pairing
        (held : string) (s : Chat.State) (now t : Z)
        (history : list ApiResponse.t) :
  held <> EmptyString ->
  let transcript_of st :=
    Chat.messages
      (final (run now (Chat.fetchHistory (Some held) false) st
                  [(t, HistoryAnswer (Fulfilled history))])) in
  outcome (run now (Chat.fetchHistory (Some held) false) s
               [(t, HistoryAnswer (Fulfilled history))]) = Completed tt /\
  (exists sorted,
      Permutation history sorted /\
      StronglySorted (le_by ApiResponse.id) sorted /\
      transcript_of s = flat_map Chat.history_pair sorted /\
      map shown (transcript_of s) =
      flat_map (fun item => [(true, ApiResponse.question item);
                             (false, ApiResponse.answer item)]) sorted) /\
  (forall (history' : list ApiResponse.t) (s' : Chat.State) (now' t' : Z),
      Permutation history history' ->
      NoDup (map ApiResponse.id history) ->
      Chat.messages
        (final (run now' (Chat.fetchHistory (Some held) false) s'
                    [(t', HistoryAnswer (Fulfilled history'))])) =
      transcript_of s) /\
  (forall u1 c1 p1 u3 c3 p3,
      history = [ApiResponse.mk 1 "A" "B" u1 c1 p1;
                 ApiResponse.mk 3 "C" "D" u3 c3 p3] \/
      history = [ApiResponse.mk 3 "C" "D" u3 c3 p3;
                 ApiResponse.mk 1 "A" "B" u1 c1 p1] ->
      map shown (transcript_of s) =
      [(true, "A"); (false, "B"); (true, "C"); (false, "D")]).
Proof.
  intros Hheld transcript_of. subst transcript_of. cbv beta.
  split; [now rewrite fetchHistory_fulfilled by assumption|].
  split.
  { rewrite fetchHistory_fulfilled by assumption. simpl.
    destruct (formattedHistory_sorted_pairs history)
      as (sorted & HP & HS & HE).
    exists sorted. rewrite HE.
    repeat split; try assumption.
    apply shown_history_pairs. }
  split.
  { intros history' s' now' t' HP HN.
    rewrite !fetchHistory_fulfilled by assumption. simpl.
    unfold Chat.formattedHistory. f_equal. symmetry.
    now apply Array_sort_any_order with (key := ApiResponse.id). }
  intros u1 c1 p1 u3 c3 p3 H.
  rewrite fetchHistory_fulfilled by assumption.
  destruct H; subst history; reflexivity.
Qed.

Lemma history_pairing_witness :
  "token" <> EmptyString /\
  map shown
      (Chat.messages
         (final (run 0 (Chat.fetchHistory (Some "token") false) Chat.initial
                     [(5, HistoryAnswer
                            (Fulfilled
                               [ApiResponse.mk 3 "C" "D" "u" "t3" None;
                                ApiResponse.mk 1 "A" "B" "u" "t1" None]))]))) =
  [(true, "A"); (false, "B"); (true, "C"); (false, "D")].
Proof.
  assert (H : "token" <> EmptyString) by discriminate.
  split; [exact H|].
  apply (history_pairing "token" Chat.initial 0 5 _ H)
    with (u1 := "u") (c1 := "t1") (p1 := None)
         (u3 := "u") (c3 := "t3") (p3 := None).
  right. reflexivity.
Defined.

(** [fetchHistory] returns at once when its guard holds. *)
Lemma fetchHistory_guard (token : option string) (flag : bool) :
  truthy token = false \/ flag = true ->
  Chat.fetchHistory token flag = Ret tt.
Proof.
  intros H. unfold Chat.fetchHistory.
  destruct token as [held|]; [|reflexivity].
  destruct H as [H|H]; rewrite H; [reflexivity|].
  now rewrite orb_true_r.
Qed.

(** A [fetchHistory] that passes its guard, run on its own until its
    request has settled. *)
Lemma fetchHistory_settled (held : string) (s : Chat.State) (now t : Z)
      (x : Settled (list ApiResponse.t)) :
  held <> EmptyString ->
  run now (Chat.fetchHistory (Some held) false) s [(t, HistoryAnswer x)] =
  mkRun (Chat.mkState
           (match x with
            | Fulfilled history => Chat.formattedHistory history
            | Rejected _ => []
            end) false true)
        [GetChatHistory held] (Completed tt).
Proof.
  intros H. unfold Chat.fetchHistory.
  rewrite truthy_Some by assumption.
  destruct x; reflexivity.
Qed.

Lemma truthy_inv (token : option string) :
  truthy token = true ->
  exists held, token = Some held /\ held <> EmptyString.
Proof.
  destruct token as [held|]; simpl; [|discriminate].
  destruct (String.eqb_spec held EmptyString); [discriminate|].
  intros _. now exists held.
Qed.

(** After a call made from the current render has run to completion, the
    guard of the next render's callback holds. *)
Lemma fetchHistory_call_closes_guard (token : option string) (s : Chat.State)
      (now t : Z) (x : Settled (list ApiResponse.t)) :
  let r := run now (Chat.fetchHistory token (Chat.historyFetched s)) s
               [(t, HistoryAnswer x)] in
  outcome r = Completed tt /\
  (length (requests r) <= 1)%nat /\
  (truthy token = false \/ Chat.historyFetched (final r) = true).
Proof.
  destruct (truthy token) eqn:Ht.
  - destruct (truthy_inv _ Ht) as (held & -> & Hheld).
    destruct (Chat.historyFetched s) eqn:Hf.
    + rewrite fetchHistory_guard by now right.
      simpl. repeat split; auto.
    + rewrite fetchHistory_settled by assumption.
      simpl. repeat split; auto.
  - rewrite fetchHistory_guard by now left.
    simpl. repeat split; auto.
Qed.

Lemma fetchHistory_in_turn_after_first (token : option string)
      (calls : list (Z * Z * Settled (list ApiResponse.t))) :
  forall s,
    truthy token = false \/ Chat.historyFetched s = true ->
    fetchHistory_in_turn token s calls = (s, []).
Proof.
  induction calls as [|[[now t] x] rest IH]; intros s H; simpl.
  - reflexivity.
  - rewrite fetchHistory_guard by assumption. simpl.
    now rewrite IH.
Qed.

(** C6.  Failure of the history request.  When [fetchHistory()] is called
    with a credential and the flag down and the history request is
    rejected, whatever the cause, the call completes with an empty
    transcript, the history-fetched flag up and the loading indicator down.
    It issued the one request and no other, and with the flag up neither the
    callback of the next render nor the fetch effect starts a new one. *)
Theorem fetchHistory_failure_is_terminal
        (held : string) (s : Chat.State) (now t : Z) (cause : JsThrown) :
  held <> EmptyString ->
  let r := run now (Chat.fetchHistory (Some held) false) s
               [(t, HistoryAnswer (Rejected cause))] in
  outcome r = Completed tt /\
  Chat.messages (final r) = [] /\
  Chat.historyFetched (final r) = true /\
  Chat.isLoading (final r) = false /\
  requests r = [GetChatHistory held] /\
  Chat.fetchHistory (Some held) (Chat.historyFetched (final r)) = Ret tt /\
  (forall user,
      Chat.fetch_effect user (Some held) (Chat.historyFetched (final r)) =
      Ret tt).
Proof.
  intros H r. subst r.
  rewrite fetchHistory_settled by assumption.
  cbn [final requests outcome
       Chat.messages Chat.historyFetched Chat.isLoading].
  repeat split.
  - apply fetchHistory_guard. now right.
  - intros [u|]; [|reflexivity]. simpl.
    now rewrite andb_false_r.
Qed.

Lemma fetchHistory_failure_is_terminal_witness :
  "token" <> EmptyString /\
  Chat.messages
    (final (run 0 (Chat.fetchHistory (Some "token") false)
                (Chat.mkState
                   [ChatMessage.mk None "q" "q" None None None true] false
                   false)
                [(9, HistoryAnswer
                       (Rejected (ErrorObject "Network Error")))])) = [].
Proof.
  assert (H : "token" <> EmptyString) by discriminate.
  split; [exact H|].
  apply (fetchHistory_failure_is_terminal "token"
           (Chat.mkState [ChatMessage.mk None "q" "q" None None None true]
                         false false)
           0 9 (ErrorObject "Network Error") H).
Defined.

(** C7, as stated, fails: [fetchHistory(); fetchHistory()] with a credential
    held and the flag down starts the history request twice.  The second
    call is made before the first has settled; the flag is still down, be
    it read from the render that made the calls or from the state the first
    call leaves at its [await]. *)
Lemma fetchHistory_twice_in_a_row_fetches_twice :
  (awaited
     (snd (run_sync 0 (Chat.fetchHistory
                         (Some "token") (Chat.historyFetched Chat.initial))
                    Chat.initial)) ++
   awaited
     (snd (run_sync
             0 (Chat.fetchHistory
                  (Some "token")
                  (Chat.historyFetched
                     (fst (run_sync 0 (Chat.fetchHistory (Some "token") false)
                                    Chat.initial))))
             (fst (run_sync 0 (Chat.fetchHistory (Some "token") false)
                            Chat.initial)))))%list =
  [GetChatHistory "token"; GetChatHistory "token"].
Proof. reflexivity. Qed.

(** C7, amended.  A call of [fetchHistory()] whose callback was created
    with no credential or with the flag already up does nothing: transcript,
    flag and loading indicator are unchanged and no request is issued.  A
    call made through the callback of the current render and run to
    completion issues at most one request and leaves the guard of the next
    render's callback closed.  Hence, for calls made in turn with an
    unchanged token, each through the callback of the latest render after
    the previous call has completed, at most one request is issued in all,
    and the calls after the first change nothing. *)
Theorem fetchHistory_at_most_once_in_turn
        (token : option string) (s : Chat.State)
        (calls : list (Z * Z * Settled (list ApiResponse.t))) :
  (forall flag now answers,
      truthy token = false \/ flag = true ->
      run now (Chat.fetchHistory token flag) s answers =
      mkRun s [] (Completed tt)) /\
  (length (snd (fetchHistory_in_turn token s calls)) <= 1)%nat /\
  (forall call rest,
      calls = call :: rest ->
      fetchHistory_in_turn token s calls =
      fetchHistory_in_turn token s [call]).
Proof.
  split.
  { intros flag now answers H. rewrite fetchHistory_guard by assumption.
    destruct answers; reflexivity. }
  assert (Hrest : forall call rest,
             fetchHistory_in_turn token s (call :: rest) =
             fetchHistory_in_turn token s [call]).
  { intros [[now t] x] rest. simpl.
    destruct (fetchHistory_call_closes_guard token s now t x)
      as (_ & _ & Hguard).
    rewrite fetchHistory_in_turn_after_first by exact Hguard.
    reflexivity. }
  split.
  - destruct calls as [|[[now t] x] rest]; [simpl; lia|].
    rewrite Hrest. simpl.
    destruct (fetchHistory_call_closes_guard token s now t x)
      as (_ & Hlen & _).
    now rewrite app_nil_r.
  - intros call rest ->. apply Hrest.
Qed.

Lemma fetchHistory_at_most_once_in_turn_witness :
  run 8 (Chat.fetchHistory (Some "token") true) Chat.initial [] =
  mkRun Chat.initial [] (Completed tt) /\
  fetchHistory_in_turn
    (Some "token") Chat.initial
    [(0, 5, Fulfilled [ApiResponse.mk 1 "A" "B" "u" "t1" None]);
     (6, 7, Rejected (ErrorObject "Network Error"))] =
  fetchHistory_in_turn
    (Some "token") Chat.initial
    [(0, 5, Fulfilled [ApiResponse.mk 1 "A" "B" "u" "t1" None])].
Proof.
  split.
  - exact (proj1 (fetchHistory_at_most_once_in_turn
                    (Some "token") Chat.initial [])
                 true 8 [] (or_intror eq_refl)).
  - exact (proj2 (proj2 (fetchHistory_at_most_once_in_turn
                           (Some "token") Chat.initial
                           [(0, 5, Fulfilled
                                     [ApiResponse.mk 1 "A" "B" "u" "t1" None]);
                            (6, 7, Rejected (ErrorObject "Network Error"))]))
                 _ _ eq_refl).
Defined.

(** *** [sendMessage], stretch by stretch *)

Lemma sendMessage_suspended_at_race
      (toISOString : Z -> string) (token : option string) (message : string)
      (now : Z) (s : Chat.State) :
  run_interleaved now (Chat.sendMessage toISOString token message) s [] =
  mkRun (at_race toISOString message now s)
        [RaceSendChatMessage message token]
        (Pending (RaceSendChatMessage message token)).
Proof. reflexivity. Qed.

Lemma sendMessage_settled_in_time
      (toISOString : Z -> string) (token : option string) (message : string)
      (now : Z) (s : Chat.State)
      (others : Chat.State -> Chat.State) (t1 : Z)
      (x : Settled ChatResponse.t) :
  lost_to_timer x = false ->
  run_interleaved now (Chat.sendMessage toISOString token message) s
                  [(others, t1, ChatAnswer x)] =
  mkRun (let s1 := others (at_race toISOString message now s) in
         Chat.mkState
           (Chat.messages s1 ++ [settled_message toISOString message x t1])
           false (Chat.historyFetched s1))
        [RaceSendChatMessage message token] (Completed tt).
Proof.
  intros H. destruct x as [response|caught]; [reflexivity|].
  simpl in H. unfold run_interleaved, Chat.sendMessage. simpl.
  rewrite H. reflexivity.
Qed.

Lemma sendMessage_suspended_at_retry
      (toISOString : Z -> string) (token : option string) (message : string)
      (now : Z) (s : Chat.State)
      (others : Chat.State -> Chat.State) (t1 : Z) :
  run_interleaved now (Chat.sendMessage toISOString token message) s
                  [(others, t1, timed_out)] =
  mkRun (at_retry toISOString message t1
                  (others (at_race toISOString message now s)))
        [RaceSendChatMessage message token;
         SendChatMessage message token]
        (Pending (SendChatMessage message token)).
Proof. reflexivity. Qed.

Lemma sendMessage_settled_late
      (toISOString : Z -> string) (token : option string) (message : string)
      (now : Z) (s : Chat.State)
      (others1 others2 : Chat.State -> Chat.State) (t1 t2 : Z)
      (x : Settled ChatResponse.t) :
  run_interleaved now (Chat.sendMessage toISOString token message) s
                  [(others1, t1, timed_out); (others2, t2, ChatAnswer x)] =
  mkRun (let s2 := others2 (at_retry toISOString message t1
                              (others1 (at_race toISOString message now s))) in
         Chat.mkState
           (Chat.replace_placeholder
              (settled_message toISOString message x t2) (Chat.messages s2))
           false (Chat.historyFetched s2))
        [RaceSendChatMessage message token;
         SendChatMessage message token]
        (Completed tt).
Proof. destruct x; reflexivity. Qed.

Lemma replace_placeholder_length (by_message : ChatMessage.t)
      (l : list ChatMessage.t) :
  length (Chat.replace_placeholder by_message l) = length l.
Proof. apply length_map. Qed.

Lemma replace_placeholder_nth (by_message : ChatMessage.t)
      (l : list ChatMessage.t) (i : nat) :
  nth_error (Chat.replace_placeholder by_message l) i =
  option_map (fun m => if has_notice_text m then by_message else m)
             (nth_error l i).
Proof. apply nth_error_map. Qed.

Lemma replace_placeholder_clears (by_message : ChatMessage.t)
      (l : list ChatMessage.t) :
  has_notice_text by_message = false ->
  forall m, In m (Chat.replace_placeholder by_message l) ->
            has_notice_text m = false.
Proof.
  intros H m Hin. unfold Chat.replace_placeholder in Hin.
  apply in_map_iff in Hin. destruct Hin as (m0 & <- & _).
  fold (has_notice_text m0).
  destruct (has_notice_text m0) eqn:E; assumption.
Qed.

Lemma nth_error_after_two (A : Type) (l : list A) (u p : A) :
  nth_error ((l ++ [u]) ++ [p]) (length l + 1) = Some p.
Proof.
  rewrite nth_error_app2 by (rewrite length_app; simpl; lia).
  rewrite length_app. simpl.
  replace (length l + 1 - (length l + 1))%nat with 0%nat by lia.
  reflexivity.
Qed.

Lemma settled_message_is_bot (toISOString : Z -> string) (message : string)
      (x : Settled ChatResponse.t) (t : Z) :
  ChatMessage.isUser (settled_message toISOString message x t) = false.
Proof. destruct x; reflexivity. Qed.

(** C4, as stated, fails, in two ways.  After the timer has won the race the
    call does not wait for the request it raced: it issues the request
    again, and only the settlement of that second request counts.  So when
    the first request is eventually answered with [Y] and the second one
    fails, the position of the placeholder holds the failure notice and [Y]
    appears nowhere.  And when the answer that takes the place of the
    placeholder is the very text of the notice, the transcript still has an
    entry with that text at that position, shown as the placeholder was. *)
Lemma timeout_substitution_counterexamples :
  map shown
      (Chat.messages
         (final
            (run 0 (Chat.sendMessage sample_toISOString (Some "token")
                                     "When?")
                 Chat.initial
                 [(60000,
                   race_lost
                     (Fulfilled
                        (ChatResponse.mk None "When?" "Y" None None None)));
                  (70000,
                   ChatAnswer
                     (Rejected
                        (Api.rejection
                           (Api.mkAxiosError (Some "ECONNABORTED")
                              "timeout of 10000ms exceeded" None))))]))) =
  [(true, "When?"); (false, Chat.failure_notice)] /\
  map shown
      (Chat.messages
         (final
            (run 0 (Chat.sendMessage sample_toISOString (Some "token")
                                     "When?")
                 Chat.initial
                 [(60000, timed_out);
                  (70000,
                   ChatAnswer
                     (Fulfilled
                        (ChatResponse.mk None "When?" Chat.timeout_notice
                                         None None None)))]))) =
  [(true, "When?"); (false, Chat.timeout_notice)] /\
  shown (Chat.timeoutMessage sample_toISOString "When?" 60000) =
  (false, Chat.timeout_notice).
Proof. repeat split. Qed.

(** C4, amended.  A [sendMessage] call run on its own whose race is lost
    to the 60-second timer appends the placeholder right after the user
    entry and issues the request a second time.  When that second request
    settles, the call completes, the transcript has kept its length, and the
    position that held the placeholder holds a bot entry ([isUser = false]):
    with the answer of the response when the second request is fulfilled,
    with the failure notice when it is rejected.  No entry with the text of
    the timeout notice is left, provided the answer of the response is not
    that very text. *)
Theorem timeout_substitution
        (toISOString : Z -> string) (token : option string)
        (message : string) (s : Chat.State) (now t1 t2 : Z)
        (x : Settled ChatResponse.t) :
  let waiting :=
    run now (Chat.sendMessage toISOString token message) s
        [(t1, timed_out)] in
  let settled :=
    run now (Chat.sendMessage toISOString token message) s
        [(t1, timed_out); (t2, ChatAnswer x)] in
  let position := (length (Chat.messages s) + 1)%nat in
  let replacement := settled_message toISOString message x t2 in
  outcome waiting = Pending (SendChatMessage message token) /\
  nth_error (Chat.messages (final waiting)) position =
  Some (Chat.timeoutMessage toISOString message t1) /\
  outcome settled = Completed tt /\
  requests settled = [RaceSendChatMessage message token;
                      SendChatMessage message token] /\
  length (Chat.messages (final settled)) =
  length (Chat.messages (final waiting)) /\
  nth_error (Chat.messages (final settled)) position = Some replacement /\
  ChatMessage.isUser replacement = false /\
  (forall response,
      x = Fulfilled response ->
      ChatMessage.answer replacement = ChatResponse.answer response) /\
  (forall cause,
      x = Rejected cause ->
      ChatMessage.answer replacement = Chat.failure_notice) /\
  (ChatMessage.answer replacement <> Chat.timeout_notice ->
   forall m, In m (Chat.messages (final settled)) ->
             ChatMessage.answer m <> Chat.timeout_notice).
Proof.
  intros waiting settled position replacement.
  subst waiting settled position replacement.
  unfold run, alone. cbn [map fst snd].
  rewrite sendMessage_suspended_at_retry, sendMessage_settled_late.
  cbn [final outcome requests at_retry at_race
       Chat.messages Chat.isLoading Chat.historyFetched].
  split; [reflexivity|].
  split; [apply nth_error_after_two|].
  split; [reflexivity|].
  split; [reflexivity|].
  split; [apply replace_placeholder_length|].
  split.
  { rewrite replace_placeholder_nth, nth_error_after_two. reflexivity. }
  split; [apply settled_message_is_bot|].
  split; [intros response ->; reflexivity|].
  split; [intros cause ->; reflexivity|].
  intros Hnot m Hin Heq.
  apply replace_placeholder_clears in Hin.
  - unfold has_notice_text in Hin. rewrite Heq in Hin.
    now rewrite String.eqb_refl in Hin.
  - unfold has_notice_text. now apply String.eqb_neq.
Qed.

Lemma timeout_substitution_witness :
  ChatMessage.answer
    (settled_message sample_toISOString "When?"
       (Fulfilled (ChatResponse.mk (Some 7) "When?" "Y" None None None))
       70000) <> Chat.timeout_notice /\
  forallb (fun m => negb (has_notice_text m))
          (Chat.messages
             (final
                (run 0 (Chat.sendMessage sample_toISOString (Some "token")
                                         "When?")
                     Chat.initial
                     [(60000, timed_out);
                      (70000, ChatAnswer
                                (Fulfilled
                                   (ChatResponse.mk (Some 7) "When?" "Y"
                                                    None None None)))]))) =
  true.
Proof.
  assert (H : ChatMessage.answer
                (settled_message sample_toISOString "When?"
                   (Fulfilled
                      (ChatResponse.mk (Some 7) "When?" "Y" None None None))
                   70000) <> Chat.timeout_notice) by discriminate.
  split; [exact H|].
  apply forallb_forall. intros m Hin.
  apply negb_true_iff, String.eqb_neq.
  apply (timeout_substitution sample_toISOString (Some "token") "When?"
           Chat.initial 0 60000 70000
           (Fulfilled (ChatResponse.mk (Some 7) "When?" "Y" None None None)));
    assumption.
Defined.

(** C5, as stated, fails: after the race of a [sendMessage] call is lost to
    the timer, the call waits for the re-issued request with the loading
    indicator still up. *)
Lemma loading_indicator_up_while_waiting_after_timeout :
  outcome
    (run 0 (Chat.sendMessage sample_toISOString (Some "token") "When?")
         Chat.initial [(60000, timed_out)]) =
  Pending (SendChatMessage "When?" (Some "token")) /\
  Chat.isLoading
    (final
       (run 0 (Chat.sendMessage sample_toISOString (Some "token") "When?")
            Chat.initial [(60000, timed_out)])) = true.
Proof. split; reflexivity. Qed.

(** C5, amended.  A [sendMessage] call raises the loading indicator before
    the race and clears it when the call completes.  When the race settles
    with a response or with an error other than the timeout, that is the
    first settling event.  When the race is lost to the timer, the timeout
    stretch leaves the indicator as it finds it (up, for a call run on its
    own), the call waits for the re-issued request with the indicator in
    that state, and the stretch that follows the settlement of the re-issued
    request clears it, whatever other callbacks did to the state
    meanwhile; the continuation never raises it. *)
Theorem loading_indicator_cleared_on_completion
        (toISOString : Z -> string) (token : option string)
        (message : string) (s : Chat.State) (now : Z) :
  Chat.isLoading
    (final (run now (Chat.sendMessage toISOString token message) s [])) =
  true /\
  (forall others t1 x,
      lost_to_timer x = false ->
      let r := run_interleaved
                 now (Chat.sendMessage toISOString token message) s
                 [(others, t1, ChatAnswer x)] in
      outcome r = Completed tt /\ Chat.isLoading (final r) = false) /\
  (forall t1,
      let r := run now (Chat.sendMessage toISOString token message) s
                   [(t1, timed_out)] in
      outcome r = Pending (SendChatMessage message token) /\
      Chat.isLoading (final r) = true) /\
  (forall others t1,
      Chat.isLoading
        (final (run_interleaved
                  now (Chat.sendMessage toISOString token message) s
                  [(others, t1, timed_out)])) =
      Chat.isLoading
        (others
           (final (run now (Chat.sendMessage toISOString token message) s
                       [])))) /\
  (forall others1 t1 others2 t2 x,
      let r := run_interleaved
                 now (Chat.sendMessage toISOString token message) s
                 [(others1, t1, timed_out); (others2, t2, ChatAnswer x)] in
      outcome r = Completed tt /\ Chat.isLoading (final r) = false).
Proof.
  unfold run, alone. cbn [map fst snd].
  split; [reflexivity|].
  split.
  { intros others t1 x H. cbv zeta.
    now rewrite sendMessage_settled_in_time by assumption. }
  split.
  { intros t1. cbv zeta.
    now rewrite sendMessage_suspended_at_retry. }
  split.
  { intros others t1.
    now rewrite sendMessage_suspended_at_retry. }
  intros others1 t1 others2 t2 x. cbv zeta.
  now rewrite sendMessage_settled_late.
Qed.

Lemma loading_indicator_cleared_on_completion_witness :
  lost_to_timer (Rejected (ErrorObject "Network Error")) = false /\
  Chat.isLoading
    (final
       (run_interleaved
          0 (Chat.sendMessage sample_toISOString (Some "token") "When?")
          Chat.initial
          [(fun s => s, 900,
            ChatAnswer (Rejected (ErrorObject "Network Error")))])) = false.
Proof.
  assert (H : lost_to_timer (Rejected (ErrorObject "Network Error")) = false)
    by reflexivity.
  split; [exact H|].
  apply (proj1 (proj2 (loading_indicator_cleared_on_completion
                         sample_toISOString (Some "token") "When?"
                         Chat.initial 0))
               (fun s => s) 900 (Rejected (ErrorObject "Network Error")) H).
Defined.

(** C10.  The replacement made when the request re-issued after a timeout
    settles reaches every entry of the transcript whose answer is the text
    of the timeout notice.  Whatever the state the settlement finds (with
    placeholders of other sends, or with entries that carry the same text
    for another reason), the call completes, the transcript keeps its
    length, every position that held an entry with that text holds one and
    the same message (the bot message of the response, or the failure
    notice), and every other position is unchanged. *)
Theorem replacement_reaches_every_notice_entry
        (toISOString : Z -> string) (token : option string)
        (message : string) (s : Chat.State) (now t1 t2 : Z)
        (others1 others2 : Chat.State -> Chat.State)
        (x : Settled ChatResponse.t) :
  let found :=
    others2
      (final (run_interleaved
                now (Chat.sendMessage toISOString token message) s
                [(others1, t1, timed_out)])) in
  let settled :=
    run_interleaved now (Chat.sendMessage toISOString token message) s
                    [(others1, t1, timed_out); (others2, t2, ChatAnswer x)] in
  let replacement := settled_message toISOString message x t2 in
  outcome settled = Completed tt /\
  Chat.messages (final settled) =
  map (fun m => if has_notice_text m then replacement else m)
      (Chat.messages found) /\
  length (Chat.messages (final settled)) = length (Chat.messages found) /\
  (forall i m,
      nth_error (Chat.messages found) i = Some m ->
      has_notice_text m = true ->
      nth_error (Chat.messages (final settled)) i = Some replacement) /\
  (forall i m,
      nth_error (Chat.messages found) i = Some m ->
      has_notice_text m = false ->
      nth_error (Chat.messages (final settled)) i = Some m).
Proof.
  intros found settled replacement. subst found settled replacement.
  rewrite sendMessage_suspended_at_retry, sendMessage_settled_late.
  cbn [final outcome Chat.messages].
  split; [reflexivity|].
  split; [reflexivity|].
  split; [apply replace_placeholder_length|].
  split; intros i m Hnth Hm;
    rewrite replace_placeholder_nth, Hnth; simpl; now rewrite Hm.
Qed.

Lemma replacement_reaches_every_notice_entry_witness :
  has_notice_text (Chat.timeoutMessage sample_toISOString "Where?" 60010) =
  true /\
  nth_error
    (Chat.messages
       (final
          (run_interleaved
             0 (Chat.sendMessage sample_toISOString (Some "token") "When?")
             Chat.initial
             [(at_race sample_toISOString "Where?" 10, 60000, timed_out);
              (at_retry sample_toISOString "Where?" 60010, 70000,
               ChatAnswer
                 (Fulfilled
                    (ChatResponse.mk (Some 7) "When?" "Y" None None
                                     None)))])))
    3 =
  Some (settled_message sample_toISOString "When?"
          (Fulfilled (ChatResponse.mk (Some 7) "When?" "Y" None None None))
          70000).
Proof.
  assert (H : has_notice_text
                (Chat.timeoutMessage sample_toISOString "Where?" 60010) =
              true) by reflexivity.
  split; [exact H|].
  apply (proj1 (proj2 (proj2 (proj2
           (replacement_reaches_every_notice_entry
              sample_toISOString (Some "token") "When?" Chat.initial
              0 60000 70000
              (at_race sample_toISOString "Where?" 10)
              (at_retry sample_toISOString "Where?" 60010)
              (Fulfilled
                 (ChatResponse.mk (Some 7) "When?" "Y" None None None))))))
           3%nat (Chat.timeoutMessage sample_toISOString "Where?" 60010)
           eq_refl H).
Defined.

(** ** The session manager *)

(** *** Recovery on mount *)

Lemma mount_effect_decoded (jwtDecode : string -> Settled User.t)
      (stored : string) (now : Z) (u : User.t) :
  stored <> EmptyString ->
  jwtDecode stored = Fulfilled u ->
  run now (Auth.mount_effect jwtDecode) (Auth.initial (Some stored)) [] =
  mkRun (if User.exp u * 1000 >? now
         then Auth.mkSession (Some u) (Some stored) false None (Some stored)
         else Auth.mkSession None None false None None)
        [] (Completed tt).
Proof.
  intros Hs Hd. unfold run, run_interleaved, Auth.mount_effect.
  cbn [run_sync Auth.sessionStorage Auth.initial].
  rewrite truthy_Some by assumption. rewrite Hd. simpl.
  destruct (User.exp u * 1000 >? now); reflexivity.
Qed.

Lemma mount_effect_undecodable (jwtDecode : string -> Settled User.t)
      (stored : string) (now : Z) (e : JsThrown) :
  stored <> EmptyString ->
  jwtDecode stored = Rejected e ->
  run now (Auth.mount_effect jwtDecode) (Auth.initial (Some stored)) [] =
  mkRun (Auth.mkSession None None false None None) [] (Completed tt).
Proof.
  intros Hs Hd. unfold run, run_interleaved, Auth.mount_effect.
  cbn [run_sync Auth.sessionStorage Auth.initial].
  rewrite truthy_Some by assumption. rewrite Hd. reflexivity.
Qed.

(** C2, as stated, fails: an entry ['token'] of session storage that holds
    the empty string does not decode, and recovery leaves it in place. *)
Lemma startup_keeps_empty_entry :
  sample_jwtDecode EmptyString =
  Rejected (ErrorObject "Invalid token specified: missing part #2") /\
  Auth.sessionStorage
    (final (run 1754300000000 (Auth.mount_effect sample_jwtDecode)
                (Auth.initial (Some EmptyString)) [])) =
  Some EmptyString.
Proof. split; reflexivity. Qed.

(** C2, amended.  Recovery on mount of a stored credential that is not the
    empty string completes in one synchronous stretch, issues no request
    and clears the loading flag.  When the credential does not decode, or
    decodes with [exp] (seconds) not after the clock reading (milliseconds),
    no credential and no identity are held and the stored entry is removed.
    When it decodes with [exp] after the clock reading, the credential and
    its decoded identity are held and the entry stays.  A stored empty
    string is taken for no stored credential: nothing is held, and the
    entry is left as it is. *)
Theorem startup_recovery
        (jwtDecode : string -> Settled User.t) (stored : string) (now : Z) :
  let r := run now (Auth.mount_effect jwtDecode)
               (Auth.initial (Some stored)) [] in
  outcome r = Completed tt /\
  requests r = [] /\
  Auth.isLoading (final r) = false /\
  (stored <> EmptyString ->
   (forall u,
       jwtDecode stored = Fulfilled u -> User.exp u * 1000 <= now ->
       Auth.user (final r) = None /\ Auth.token (final r) = None /\
       Auth.sessionStorage (final r) = None) /\
   (forall e,
       jwtDecode stored = Rejected e ->
       Auth.user (final r) = None /\ Auth.token (final r) = None /\
       Auth.sessionStorage (final r) = None) /\
   (forall u,
       jwtDecode stored = Fulfilled u -> now < User.exp u * 1000 ->
       Auth.user (final r) = Some u /\ Auth.token (final r) = Some stored /\
       Auth.sessionStorage (final r) = Some stored)) /\
  (stored = EmptyString ->
   Auth.user (final r) = None /\ Auth.token (final r) = None /\
   Auth.sessionStorage (final r) = Some EmptyString).
Proof.
  intros r. subst r.
  destruct (String.eqb_spec stored EmptyString) as [->|Hs].
  { do 3 (split; [reflexivity|]).
    split; [intros Hne; now contradiction Hne|].
    intros _. repeat split. }
  destruct (jwtDecode stored) as [u|e] eqn:Hd.
  - rewrite (mount_effect_decoded jwtDecode stored now u Hs Hd).
    destruct (User.exp u * 1000 >? now) eqn:E;
      (do 3 (split; [reflexivity|]));
      (split; [intros _|intros He; contradiction]).
    + apply Z.gtb_lt in E.
      split; [intros u' Hu' Hle; inversion Hu'; subst u'; lia|].
      split; [intros e He; discriminate|].
      intros u' Hu' _. inversion Hu'; subst u'. repeat split.
    + rewrite Z.gtb_ltb in E. apply Z.ltb_ge in E.
      split; [intros u' _ _; repeat split|].
      split; [intros e He; discriminate|].
      intros u' Hu' Hlt. inversion Hu'; subst u'. lia.
  - rewrite (mount_effect_undecodable jwtDecode stored now e Hs Hd).
    do 3 (split; [reflexivity|]).
    split; [intros _|intros He; contradiction].
    split; [intros u Hu; discriminate|].
    split; [intros e' _; repeat split|].
    intros u Hu; discriminate.
Qed.

Lemma startup_recovery_witness :
  "header.stale.signature" <> EmptyString /\
  sample_jwtDecode "header.stale.signature" =
  Fulfilled (User.mk "student@example.edu" "student" 946684800) /\
  946684800 * 1000 <= 1754300000000 /\
  Auth.sessionStorage
    (final (run 1754300000000 (Auth.mount_effect sample_jwtDecode)
                (Auth.initial (Some "header.stale.signature")) [])) = None.
Proof.
  assert (Hs : "header.stale.signature" <> EmptyString) by discriminate.
  assert (Hd : sample_jwtDecode "header.stale.signature" =
               Fulfilled (User.mk "student@example.edu" "student" 946684800))
    by reflexivity.
  assert (Hle : 946684800 * 1000 <= 1754300000000) by lia.
  repeat (split; [assumption|]).
  apply (proj1 (proj1 (proj2 (proj2 (proj2
           (startup_recovery sample_jwtDecode "header.stale.signature"
                             1754300000000)))) Hs)
               (User.mk "student@example.edu" "student" 946684800) Hd Hle).
Defined.

(** *** [login] *)


Lemma login_without_configuration
      (jwtDecode : string -> Settled User.t) (base : option string)
      (writes : string -> option JsThrown)
      (email password : string) (s : Auth.Session) (now : Z)
      (answers : list (Z * Answer)) :
  truthy base = false ->
  run now (Auth.login jwtDecode base writes email password) s answers =
  mkRun (Auth.mkSession
           (Auth.user s) (Auth.token s) false
           (Some "API configuration missing. Please check your .env file.")
           (Auth.sessionStorage s))
        [] (Completed false).
Proof.
  intros H. unfold run, run_interleaved, Auth.login. rewrite H.
  destruct answers; reflexivity.
Qed.

Lemma login_caught
      (jwtDecode : string -> Settled User.t) (base : option string)
      (writes : string -> option JsThrown)
      (email password : string) (s : Auth.Session) (now t : Z)
      (x : Settled LoginResponse.t) (caught : JsThrown) :
  truthy base = true ->
  x = Rejected caught \/
  (exists response,
      x = Fulfilled response /\
      jwtDecode (LoginResponse.access_token response) = Rejected caught) ->
  run now (Auth.login jwtDecode base writes email password) s
      [(t, LoginAnswer x)] =
  mkRun (Auth.mkSession
           (Auth.user s) (Auth.token s) false
           (Some (Auth.login_error_message base caught))
           (Auth.sessionStorage s))
        [LoginUser email password] (Completed false).
Proof.
  intros H Hx. unfold run, run_interleaved, Auth.login, Api.loginUser.
  rewrite H.
  destruct Hx as [->|(response & -> & Hd)]; simpl;
    [|rewrite Hd]; reflexivity.
Qed.

Lemma login_succeeded
      (jwtDecode : string -> Settled User.t) (base : option string)
      (writes : string -> option JsThrown)
      (email password : string) (s : Auth.Session) (now t : Z)
      (response : LoginResponse.t) (u : User.t) :
  truthy base = true ->
  jwtDecode (LoginResponse.access_token response) = Fulfilled u ->
  writes (LoginResponse.access_token response) = None ->
  run now (Auth.login jwtDecode base writes email password) s
      [(t, LoginAnswer (Fulfilled response))] =
  mkRun (Auth.mkSession
           (Some u) (Some (LoginResponse.access_token response)) false None
           (Some (LoginResponse.access_token response)))
        [LoginUser email password] (Completed true).
Proof.
  intros H Hd Hw.
  unfold run, run_interleaved, Auth.login, Api.loginUser,
    Auth.sessionStorage_setItem.
  rewrite H. simpl. rewrite Hd. simpl. rewrite Hw. reflexivity.
Qed.

(** The write to the storage is the last statement of the [try] block: when
    it throws, the credential and the identity have been set already, and
    the [catch] block reports the thrown value like any other. *)
Lemma login_write_refused
      (jwtDecode : string -> Settled User.t) (base : option string)
      (writes : string -> option JsThrown)
      (email password : string) (s : Auth.Session) (now t : Z)
      (response : LoginResponse.t) (u : User.t) (thrown : JsThrown) :
  truthy base = true ->
  jwtDecode (LoginResponse.access_token response) = Fulfilled u ->
  writes (LoginResponse.access_token response) = Some thrown ->
  run now (Auth.login jwtDecode base writes email password) s
      [(t, LoginAnswer (Fulfilled response))] =
  mkRun (Auth.mkSession
           (Some u) (Some (LoginResponse.access_token response)) false
           (Some (Auth.login_error_message base thrown))
           (Auth.sessionStorage s))
        [LoginUser email password] (Completed false).
Proof.
  intros H Hd Hw.
  unfold run, run_interleaved, Auth.login, Api.loginUser,
    Auth.sessionStorage_setItem.
  rewrite H. simpl. rewrite Hd. simpl. rewrite Hw. reflexivity.
Qed.

(** How a call of [login] that gets its answer ends: one of four ways. *)
Lemma login_cases
      (jwtDecode : string -> Settled User.t) (base : option string)
      (writes : string -> option JsThrown) (x : Settled LoginResponse.t) :
  truthy base = false \/
  (truthy base = true /\
   ((exists caught,
        x = Rejected caught \/
        (exists response,
            x = Fulfilled response /\
            jwtDecode (LoginResponse.access_token response) =
            Rejected caught)) \/
    (exists response u thrown,
        x = Fulfilled response /\
        jwtDecode (LoginResponse.access_token response) = Fulfilled u /\
        writes (LoginResponse.access_token response) = Some thrown) \/
    (exists response u,
        x = Fulfilled response /\
        jwtDecode (LoginResponse.access_token response) = Fulfilled u /\
        writes (LoginResponse.access_token response) = None))).
Proof.
  destruct (truthy base); [right; split; [reflexivity|]|now left].
  destruct x as [response|caught]; [|left; exists caught; now left].
  destruct (jwtDecode (LoginResponse.access_token response)) as [u|caught]
    eqn:Hd.
  - destruct (writes (LoginResponse.access_token response)) as [thrown|]
      eqn:Hw.
    + right. left. now exists response, u, thrown.
    + right. right. now exists response, u.
  - left. exists caught. right. now exists response.
Qed.




(** C8.  [login] does not look at [exp]: a returned token that decodes is
    kept whatever its expiry.  Here the backend returns, at a clock reading
    of August 2025, a token that expired in January 2000; [login] answers
    [true] and holds the credential, whose expiry is not after the time
    of the call.  Recovery on mount, given the same token at the same clock
    reading, discards it. *)
Theorem login_keeps_expired_credential :
  exists r u,
    r = run 1754300000000
            (Auth.login sample_jwtDecode (Some "http://localhost:8000")
                        storage_with_room
                        "student@example.edu" "secret")
            (Auth.mkSession None None false None None)
            [(1754300000300,
              LoginAnswer
                (Fulfilled
                   (LoginResponse.mk "header.stale.signature" "bearer")))] /\
    outcome r = Completed true /\
    Auth.token (final r) = Some "header.stale.signature" /\
    Auth.user (final r) = Some u /\
    Auth.sessionStorage (final r) = Some "header.stale.signature" /\
    User.exp u * 1000 <= 1754300000000 /\
    Auth.token
      (final (run 1754300000000 (Auth.mount_effect sample_jwtDecode)
                  (Auth.initial (Some "header.stale.signature")) [])) = None.
Proof.
  eexists. eexists. split; [reflexivity|].
  cbn. repeat split; try reflexivity. discriminate.
Qed.

(** C9.  [logout()] completes in one synchronous stretch without issuing a
    request and leaves no identity, no credential, no error and no stored
    entry, whatever the session was.  The reset effect of the chat provider,
    run for the identity [logout] leaves, turns any chat state (so the one
    reached by any sequence of sends and fetches) into one with an empty
    transcript and the history-fetched flag down, again in one stretch and
    without a request. *)
Theorem logout_resets_session_and_chat
        (s : Auth.Session) (c : Chat.State) (now now' : Z) :
  let r := run now Auth.logout s [] in
  let r' := run now' (Chat.reset_effect (Auth.user (final r))) c [] in
  outcome r = Completed tt /\
  requests r = [] /\
  Auth.user (final r) = None /\
  Auth.token (final r) = None /\
  Auth.error (final r) = None /\
  Auth.sessionStorage (final r) = None /\
  outcome r' = Completed tt /\
  requests r' = [] /\
  Chat.messages (final r') = [] /\
  Chat.historyFetched (final r') = false.
Proof.
  cbn. repeat split.
Qed.

(** ** [includes] finds substrings *)

Lemma prefix_iff_append (sub s : string) :
  prefix sub s = true <-> exists post, s = sub ++ post.
Proof.
  revert s. induction sub as [|a sub IH]; intros s.
  - split; [intros _; now exists s|intros _; now destruct s].
  - destruct s as [|b s]; simpl.
    + split; [discriminate|intros (post & H); discriminate].
    + destruct (ascii_dec a b) as [->|Hne].
      * rewrite IH. split; intros (post & H); exists post.
        -- now rewrite H.
        -- now inversion H.
      * split; [discriminate|].
        intros (post & H). inversion H. congruence.
Qed.

Lemma includes_iff_substring (s sub : string) :
  includes s sub = true <-> exists pre post, s = pre ++ sub ++ post.
Proof.
  induction s as [|c s IH].
  - change (includes EmptyString sub) with (prefix sub EmptyString || false).
    rewrite orb_false_r. split.
    + intros H. apply prefix_iff_append in H. destruct H as (post & H).
      now exists EmptyString, post.
    + intros (pre & post & H). apply prefix_iff_append.
      destruct pre; [now exists post|discriminate].
  - change (includes (String c s) sub)
      with (prefix sub (String c s) || includes s sub).
    split.
    + intros H. apply orb_true_iff in H. destruct H as [H|H].
      * apply prefix_iff_append in H. destruct H as (post & H).
        now exists EmptyString, post.
      * apply IH in H. destruct H as (pre & post & H).
        exists (String c pre), post. simpl. now rewrite H.
    + intros (pre & post & H). apply orb_true_iff.
      destruct pre as [|c' pre].
      * left. apply prefix_iff_append. now exists post.
      * right. apply IH. exists pre, post. simpl in H. now inversion H.
Qed.

(** ** The earlier revisions *)

(** The revision that sorts and pairs shows the same entries as the current
    one. *)
Lemma earlier_history_pairing (held : string) (s : Chat.State) (now t : Z)
      (history : list ApiResponse.t) :
  held <> EmptyString ->
  map shown
      (Chat.messages
         (final (run now (ChatEarlier.fetchHistory (Some held) false) s
                     [(t, HistoryAnswer (Fulfilled history))]))) =
  map shown
      (Chat.messages
         (final (run now (Chat.fetchHistory (Some held) false) s
                     [(t, HistoryAnswer (Fulfilled history))]))).
Proof.
  intros H. rewrite fetchHistory_fulfilled by assumption.
  unfold ChatEarlier.fetchHistory. rewrite truthy_Some by assumption.
  cbn [negb orb]. cbn [final Chat.messages].
  change (map shown (ChatEarlier.formattedHistory history) =
          map shown (Chat.formattedHistory history)).
  unfold ChatEarlier.formattedHistory, Chat.formattedHistory.
  induction (Array_sort (fun a b => ApiResponse.id a - ApiResponse.id b)
                        history) as [|item l IH]; simpl; [reflexivity|].
  now rewrite IH.
Qed.

(** In both earlier revisions too the replacement reaches every entry with
    the text of the notice. *)
Lemma earlier_replacement_reaches_every_notice_entry
      (toISOString : Z -> string) (token : option string) (message : string)
      (s : Chat.State) (now t1 t2 : Z)
      (others1 others2 : Chat.State -> Chat.State)
      (x : Settled ChatResponse.t) :
  Chat.messages
    (final (run_interleaved
              now (ChatEarlier.sendMessage toISOString token message) s
              [(others1, t1, timed_out); (others2, t2, ChatAnswer x)])) =
  Chat.replace_placeholder
    (match x with
     | Fulfilled response => ChatEarlier.botMessage toISOString response t2
     | Rejected _ => Chat.errorMessage toISOString message t2
     end)
    (Chat.messages
       (others2
          (final (run_interleaved
                    now (ChatEarlier.sendMessage toISOString token message) s
                    [(others1, t1, timed_out)])))).
Proof. destruct x; reflexivity. Qed.

(** The first revision neither sorts nor pairs, and on a failed history
    request it shows two canned entries. *)
Remark first_revision_differs (held : string) (s : Chat.State) (now t : Z)
       (cause : JsThrown) :
  held <> EmptyString ->
  Chat.messages
    (final (run now (ChatEarlier.first_fetchHistory (Some held) false) s
                [(t, HistoryAnswer (Rejected cause))])) =
  ChatEarlier.dummyMessages /\
  map shown
      (Chat.messages
         (final (run now (ChatEarlier.first_fetchHistory (Some held) false) s
                     [(t, HistoryAnswer
                            (Fulfilled
                               [ApiResponse.mk 3 "C" "D" "u" "t3" None;
                                ApiResponse.mk 1 "A" "B" "u" "t1" None]))]))) =
  [(false, "D"); (false, "B")].
Proof.
  intros H. unfold ChatEarlier.first_fetchHistory.
  rewrite truthy_Some by assumption. split; reflexivity.
Qed.

(** ** Two sends that both time out *)

(** The send of [Where?] starts while the send of [When?] is racing; both
    races are lost to the timer; the request re-issued for [When?] is
    answered first.  Its answer takes the place of both placeholders, and
    the answer to [Where?], arriving later, finds no entry to replace. *)
Example second_answer_finds_no_placeholder :
  map shown
      (Chat.messages
         (final
            (run_interleaved
               10 (Chat.sendMessage sample_toISOString (Some "token")
                                    "Where?")
               (at_race sample_toISOString "When?" 0 Chat.initial)
               [(at_retry sample_toISOString "When?" 60000, 60010, timed_out);
                (fun found =>
                   Chat.mkState
                     (Chat.replace_placeholder
                        (settled_message
                           sample_toISOString "When?"
                           (Fulfilled
                              (ChatResponse.mk None "When?" "In August."
                                               None None None))
                           65000)
                        (Chat.messages found))
                     false (Chat.historyFetched found),
                 70000,
                 ChatAnswer
                   (Fulfilled
                      (ChatResponse.mk None "Where?" "In the main hall."
                                       None None None)))]))) =
  [(true, "When?"); (true, "Where?");
   (false, "In August."); (false, "In August.")].
Proof. reflexivity. Qed.

(** * Further properties of the code *)

(** ** [sendMessage] *)

Lemma lost_to_timer_inv (x : Settled ChatResponse.t) :
  lost_to_timer x = true -> ChatAnswer x = timed_out.
Proof.
  destruct x as [response|[message|value]]; simpl; try discriminate.
  intros H. apply String.eqb_eq in H. now subst message.
Qed.

(** X1.  The message typed is visible before any answer: as soon as
    [sendMessage] is called, and while its request is still pending, the
    transcript is the former one followed by the user entry of the message,
    the loading indicator is up, and the one request issued carries the
    message and the token; the history-fetched flag is untouched. *)
Theorem sendMessage_shows_message_at_once
        (toISOString : Z -> string) (token : option string)
        (message : string) (s : Chat.State) (now : Z) :
  let r := run now (Chat.sendMessage toISOString token message) s [] in
  outcome r = Pending (RaceSendChatMessage message token) /\
  requests r = [RaceSendChatMessage message token] /\
  Chat.messages (final r) =
  (Chat.messages s ++ [Chat.userMessage toISOString message now])%list /\
  nth_error (map shown (Chat.messages (final r)))
            (length (Chat.messages s)) = Some (true, message) /\
  Chat.isLoading (final r) = true /\
  Chat.historyFetched (final r) = Chat.historyFetched s.
Proof.
  cbv zeta. unfold run, alone. cbn [map].
  rewrite sendMessage_suspended_at_race.
  cbn [final outcome requests at_race
       Chat.messages Chat.isLoading Chat.historyFetched].
  repeat split.
  rewrite map_app, nth_error_app2 by (rewrite length_map; lia).
  rewrite length_map, Nat.sub_diag. reflexivity.
Qed.

(** X2.  An answer that arrives before the timer: the call completes after
    the one request, with the loading indicator down, and the transcript is
    the former one followed by the user entry and one bot entry.  The bot
    entry carries the message as its question (whatever question the
    response echoes), the answer and the id of the response, and as its
    time the [created_at] of the response when that is a non-empty string,
    the reading of the client clock otherwise. *)
Theorem sendMessage_appends_answer_in_time
        (toISOString : Z -> string) (token : option string)
        (message : string) (s : Chat.State) (now t : Z)
        (response : ChatResponse.t) :
  let r := run now (Chat.sendMessage toISOString token message) s
               [(t, ChatAnswer (Fulfilled response))] in
  let bot := Chat.botMessage toISOString message response t in
  outcome r = Completed tt /\
  requests r = [RaceSendChatMessage message token] /\
  Chat.isLoading (final r) = false /\
  Chat.historyFetched (final r) = Chat.historyFetched s /\
  Chat.messages (final r) =
  (Chat.messages s ++ [Chat.userMessage toISOString message now; bot])%list /\
  shown bot = (false, ChatResponse.answer response) /\
  ChatMessage.question bot = message /\
  ChatMessage.id bot = ChatResponse.id response /\
  ChatMessage.created_at bot =
  match ChatResponse.created_at response with
  | Some at_server =>
      if (at_server =? EmptyString)%string then Some (toISOString t)
      else Some at_server
  | None => Some (toISOString t)
  end.
Proof.
  cbv zeta. unfold run, alone. cbn [map fst snd].
  rewrite sendMessage_settled_in_time by reflexivity.
  cbn [final outcome requests at_race settled_message
       Chat.messages Chat.isLoading Chat.historyFetched].
  do 4 (split; [reflexivity|]).
  split; [now rewrite <- app_assoc|].
  do 3 (split; [reflexivity|]).
  unfold Chat.botMessage. cbn [ChatMessage.created_at].
  destruct (ChatResponse.created_at response) as [at_server|];
    [|reflexivity].
  simpl. now destruct (at_server =? EmptyString)%string.
Qed.

(** X3.  A request that fails before the timer, for any cause other than
    the timer itself: the call completes with the fixed failure notice as the
    bot entry after the user entry and with the loading indicator down.  The
    request is not issued again. *)
Theorem sendMessage_failure_is_not_retried
        (toISOString : Z -> string) (token : option string)
        (message : string) (s : Chat.State) (now t : Z) (cause : JsThrown) :
  Chat.is_timeout cause = false ->
  let r := run now (Chat.sendMessage toISOString token message) s
               [(t, ChatAnswer (Rejected cause))] in
  outcome r = Completed tt /\
  requests r = [RaceSendChatMessage message token] /\
  Chat.isLoading (final r) = false /\
  Chat.messages (final r) =
  (Chat.messages s ++ [Chat.userMessage toISOString message now;
                       Chat.errorMessage toISOString message t])%list /\
  shown (Chat.errorMessage toISOString message t) =
  (false, Chat.failure_notice).
Proof.
  intros H. cbv zeta. unfold run, alone. cbn [map fst snd].
  rewrite sendMessage_settled_in_time by exact H.
  cbn [final outcome requests at_race settled_message
       Chat.messages Chat.isLoading Chat.historyFetched].
  do 3 (split; [reflexivity|]).
  split; [now rewrite <- app_assoc|reflexivity].
Qed.

Lemma sendMessage_failure_is_not_retried_witness :
  Chat.is_timeout
    (Api.rejection (Api.mkAxiosError (Some "ERR_NETWORK") "Network Error"
                                     None)) = false /\
  requests
    (run 0 (Chat.sendMessage sample_toISOString (Some "token") "When?")
         Chat.initial
         [(900, ChatAnswer
                  (Rejected
                     (Api.rejection
                        (Api.mkAxiosError (Some "ERR_NETWORK")
                                          "Network Error" None))))]) =
  [RaceSendChatMessage "When?" (Some "token")].
Proof.
  assert (H : Chat.is_timeout
                (Api.rejection
                   (Api.mkAxiosError (Some "ERR_NETWORK") "Network Error"
                                     None)) = false) by reflexivity.
  split; [exact H|].
  apply (sendMessage_failure_is_not_retried
           sample_toISOString (Some "token") "When?" Chat.initial 0 900
           (Api.rejection
              (Api.mkAxiosError (Some "ERR_NETWORK") "Network Error" None))
           H).
Defined.

Lemma run_among_returned (St A : Type) (s : St) (a : A)
      (steps : list ((St -> St) * Z * Answer)) :
  run_among s (Returned a) steps = mkRun s [] (Completed a).
Proof. destruct steps; reflexivity. Qed.

(** X4.  [sendMessage] never throws, and a call adds exactly two entries.
    Whatever settlements it is given, and however many, the call run on its
    own does not end with an uncaught error.  When it is followed to its end
    (one settlement, or two when the first is the timer's), it completes
    with the loading indicator down, the history-fetched flag as it was, and
    a transcript two entries longer than before. *)
Theorem sendMessage_never_throws_and_adds_two_entries
        (toISOString : Z -> string) (token : option string)
        (message : string) (s : Chat.State) (now : Z) :
  (forall answers e,
      outcome (run now (Chat.sendMessage toISOString token message) s
                   answers) <> Uncaught e) /\
  (forall t1 x1 t2 x2,
      let r := run now (Chat.sendMessage toISOString token message) s
                   (if lost_to_timer x1
                    then [(t1, ChatAnswer x1); (t2, ChatAnswer x2)]
                    else [(t1, ChatAnswer x1)]) in
      outcome r = Completed tt /\
      length (Chat.messages (final r)) =
      (length (Chat.messages s) + 2)%nat /\
      Chat.isLoading (final r) = false /\
      Chat.historyFetched (final r) = Chat.historyFetched s).
Proof.
  split.
  - intros answers e. unfold run, alone.
    destruct answers as [|[t1 a1] rest]; cbn [map fst snd];
      [now rewrite sendMessage_suspended_at_race|].
    destruct a1 as [x|x|x]; try (cbn; discriminate).
    destruct (lost_to_timer x) eqn:Hx.
    + rewrite (lost_to_timer_inv x Hx).
      destruct rest as [|[t2 a2] rest]; cbn [map fst snd];
        [now rewrite sendMessage_suspended_at_retry|].
      destruct a2 as [x2|x2|x2]; try (cbn; discriminate).
      destruct x2; cbn; rewrite run_among_returned; discriminate.
    + destruct x as [response|caught].
      * cbn. rewrite run_among_returned. discriminate.
      * simpl in Hx. unfold run_interleaved, Chat.sendMessage. cbn.
        rewrite Hx. cbn. rewrite run_among_returned. discriminate.
  - intros t1 x1 t2 x2. cbv zeta. unfold run, alone.
    destruct (lost_to_timer x1) eqn:Hx; cbn [map fst snd].
    + rewrite (lost_to_timer_inv x1 Hx), sendMessage_settled_late.
      cbn [final outcome at_retry at_race
           Chat.messages Chat.isLoading Chat.historyFetched].
      rewrite replace_placeholder_length, !length_app. cbn [length].
      repeat split. lia.
    + rewrite sendMessage_settled_in_time by exact Hx.
      cbn [final outcome at_race
           Chat.messages Chat.isLoading Chat.historyFetched].
      rewrite !length_app. cbn [length].
      repeat split. lia.
Qed.

(** X5.  An answer that arrives after a timeout is shown only in place of
    an entry with the text of the notice.  When the settlement of the
    re-issued request finds a transcript with no such entry (the chat was
    reset meanwhile, say), the transcript is left as found: the answer, or
    the failure notice, appears nowhere. *)
Theorem late_answer_needs_a_placeholder
        (toISOString : Z -> string) (token : option string)
        (message : string) (s : Chat.State) (now t1 t2 : Z)
        (others1 others2 : Chat.State -> Chat.State)
        (x : Settled ChatResponse.t) :
  forallb (fun m => negb (has_notice_text m))
          (Chat.messages
             (others2
                (final (run_interleaved
                          now (Chat.sendMessage toISOString token message) s
                          [(others1, t1, timed_out)])))) = true ->
  Chat.messages
    (final (run_interleaved
              now (Chat.sendMessage toISOString token message) s
              [(others1, t1, timed_out); (others2, t2, ChatAnswer x)])) =
  Chat.messages
    (others2
       (final (run_interleaved
                 now (Chat.sendMessage toISOString token message) s
                 [(others1, t1, timed_out)]))).
Proof.
  rewrite sendMessage_suspended_at_retry, sendMessage_settled_late.
  cbn [final Chat.messages].
  generalize (Chat.messages
                (others2 (at_retry toISOString message t1
                            (others1 (at_race toISOString message now s))))).
  intros l H. unfold Chat.replace_placeholder.
  induction l as [|m l IH]; [reflexivity|].
  cbn [forallb] in H. apply andb_true_iff in H. destruct H as [Hm Hl].
  cbn [map]. rewrite IH by exact Hl.
  unfold has_notice_text in Hm. apply negb_true_iff in Hm.
  now rewrite Hm.
Qed.

Lemma late_answer_needs_a_placeholder_witness :
  forallb (fun m => negb (has_notice_text m))
          (Chat.messages
             (cleared
                (final (run_interleaved
                          0 (Chat.sendMessage sample_toISOString
                                              (Some "token") "When?")
                          Chat.initial
                          [(fun s => s, 60000, timed_out)])))) = true /\
  Chat.messages
    (final (run_interleaved
              0 (Chat.sendMessage sample_toISOString (Some "token") "When?")
              Chat.initial
              [(fun s => s, 60000, timed_out);
               (cleared, 70000,
                ChatAnswer
                  (Fulfilled
                     (ChatResponse.mk None "When?" "In August." None None
                                      None)))])) = [].
Proof.
  assert (H : forallb (fun m => negb (has_notice_text m))
                (Chat.messages
                   (cleared
                      (final (run_interleaved
                                0 (Chat.sendMessage sample_toISOString
                                                    (Some "token") "When?")
                                Chat.initial
                                [(fun s => s, 60000, timed_out)])))) = true)
    by reflexivity.
  split; [exact H|].
  apply (late_answer_needs_a_placeholder
           sample_toISOString (Some "token") "When?" Chat.initial
           0 60000 70000 (fun s => s) cleared
           (Fulfilled
              (ChatResponse.mk None "When?" "In August." None None None)) H).
Defined.

(** X6.  A message that is itself the text of the timeout notice: when its
    race is lost to the timer, the replacement that follows takes the user
    entry too, since the user entry carries the message in its [answer]
    field.  The call run on its own ends with the replacement at both
    positions, and no user entry for the message is left. *)
Theorem own_message_with_notice_text_is_replaced
        (toISOString : Z -> string) (token : option string)
        (s : Chat.State) (now t1 t2 : Z) (x : Settled ChatResponse.t) :
  let r := run now (Chat.sendMessage toISOString token Chat.timeout_notice) s
               [(t1, timed_out); (t2, ChatAnswer x)] in
  let replacement :=
    settled_message toISOString Chat.timeout_notice x t2 in
  Chat.messages (final r) =
  (Chat.replace_placeholder replacement (Chat.messages s)
   ++ [replacement; replacement])%list /\
  ChatMessage.isUser replacement = false.
Proof.
  cbv zeta. unfold run, alone. cbn [map fst snd].
  rewrite sendMessage_settled_late.
  cbn [final at_retry at_race Chat.messages].
  split; [|apply settled_message_is_bot].
  unfold Chat.replace_placeholder. rewrite !map_app, <- app_assoc.
  reflexivity.
Qed.

(** ** [clearChat] and the two effects *)

(** X7.  [clearChat()] empties the transcript at once, without a request,
    and leaves the loading indicator and the history-fetched flag as they
    are; calling it again changes nothing more.  Since the flag is kept, a
    history that had been fetched is not fetched again after the reset:
    the fetch effect of the next render does nothing. *)
Theorem clearChat_keeps_the_flag (s : Chat.State) (now now' : Z) :
  let r := run now Chat.clearChat s [] in
  outcome r = Completed tt /\
  requests r = [] /\
  Chat.messages (final r) = [] /\
  Chat.isLoading (final r) = Chat.isLoading s /\
  Chat.historyFetched (final r) = Chat.historyFetched s /\
  final (run now' Chat.clearChat (final r) []) = final r /\
  (Chat.historyFetched s = true ->
   forall user token,
     Chat.fetch_effect user token (Chat.historyFetched (final r)) = Ret tt).
Proof.
  cbv zeta. cbn. repeat split.
  intros H [u|] token; [|reflexivity].
  rewrite H. cbn. now rewrite andb_false_r.
Qed.

Lemma clearChat_keeps_the_flag_witness :
  Chat.historyFetched (Chat.mkState [] false true) = true /\
  Chat.fetch_effect
    (Some (User.mk "student@example.edu" "student" 4102444800))
    (Some "header.fresh.signature")
    (Chat.historyFetched
       (final (run 0 Chat.clearChat (Chat.mkState [] false true) []))) =
  Ret tt.
Proof.
  assert (H : Chat.historyFetched (Chat.mkState [] false true) = true)
    by reflexivity.
  split; [exact H|].
  apply (proj2 (proj2 (proj2 (proj2 (proj2 (proj2
           (clearChat_keeps_the_flag (Chat.mkState [] false true) 0 0)))))) H).
Defined.

(** X8.  The history is fetched once per login.  The fetch effect issues the
    history request exactly when an identity and a non-empty token are held
    and the flag is down, and nothing otherwise.  After the reset effect has
    run for a logout, the flag is down again whatever it was, so the fetch
    effect of the next login issues the request anew, with the token of that
    login. *)
Theorem history_is_fetched_once_per_login
        (c : Chat.State) (now now' : Z) (u : User.t) (held : string) :
  held <> EmptyString ->
  (forall user token flag s,
      requests (run now (Chat.fetch_effect user token flag) s []) =
      match user, token with
      | Some _, Some t =>
          if negb (t =? EmptyString)%string && negb flag
          then [GetChatHistory t] else []
      | _, _ => []
      end) /\
  requests
    (run now' (Chat.fetch_effect
                 (Some u) (Some held)
                 (Chat.historyFetched
                    (final (run now (Chat.reset_effect None) c []))))
         (final (run now (Chat.reset_effect None) c [])) []) =
  [GetChatHistory held] /\
  (forall s, final (run now (Chat.reset_effect (Some u)) s []) = s).
Proof.
  intros Hheld. split; [|split].
  - intros [u'|] [t|] flag s; try reflexivity.
    unfold Chat.fetch_effect, Chat.fetchHistory. cbn [truthy].
    destruct (t =? EmptyString)%string; [reflexivity|].
    destruct flag; reflexivity.
  - cbn [run run_interleaved run_sync Chat.reset_effect final
         Chat.historyFetched].
    unfold Chat.fetch_effect, Chat.fetchHistory.
    rewrite truthy_Some by assumption. reflexivity.
  - intros s. reflexivity.
Qed.

Lemma history_is_fetched_once_per_login_witness :
  "header.fresh.signature" <> EmptyString /\
  requests
    (run 9 (Chat.fetch_effect
              (Some (User.mk "student@example.edu" "student" 4102444800))
              (Some "header.fresh.signature")
              (Chat.historyFetched
                 (final (run 5 (Chat.reset_effect None)
                             (Chat.mkState [] false true) []))))
         (final (run 5 (Chat.reset_effect None)
                     (Chat.mkState [] false true) [])) []) =
  [GetChatHistory "header.fresh.signature"].
Proof.
  assert (H : "header.fresh.signature" <> EmptyString) by discriminate.
  split; [exact H|].
  apply (proj1 (proj2 (history_is_fetched_once_per_login
                         (Chat.mkState [] false true) 5 9
                         (User.mk "student@example.edu" "student" 4102444800)
                         "header.fresh.signature" H))).
Defined.

(** ** The fetched history *)

(** X9.  Items of the history that share an [id] keep, in the transcript,
    the order in which the backend listed them: the entries with a given
    [id] are the pairs of the items with that [id], in the order of the
    response. *)
Theorem history_keeps_backend_order_within_an_id
        (history : list ApiResponse.t) (k : Z) :
  filter (fun m => match ChatMessage.id m with
                   | Some n => n =? k
                   | None => false
                   end)
         (Chat.formattedHistory history) =
  flat_map Chat.history_pair
           (filter (fun item => ApiResponse.id item =? k) history).
Proof.
  unfold Chat.formattedHistory.
  rewrite <- (Array_sort_stable _ ApiResponse.id k history).
  change (fun a b => ApiResponse.id a - ApiResponse.id b)
    with (compare_by ApiResponse.id).
  induction (Array_sort (compare_by ApiResponse.id) history)
    as [|item l IH]; [reflexivity|].
  cbn [flat_map filter app Chat.history_pair ChatMessage.id].
  rewrite IH.
  destruct (ApiResponse.id item =? k); reflexivity.
Qed.

(** ** ChatPopup *)

Lemma keys_from_history (l : list ApiResponse.t) :
  Forall (fun item => ApiResponse.id item <> 0) l ->
  forall index,
    ChatPopup.keys_from index (flat_map Chat.history_pair l) =
    flat_map (fun item => [(ApiResponse.id item, true);
                           (ApiResponse.id item, false)]) l.
Proof.
  induction 1 as [|item l Hitem _ IH]; intros index; [reflexivity|].
  cbn [flat_map Chat.history_pair app ChatPopup.keys_from].
  rewrite IH. unfold ChatPopup.key. cbn [ChatMessage.id ChatMessage.isUser].
  destruct (Z.eqb_spec (ApiResponse.id item) 0); [contradiction|reflexivity].
Qed.

Lemma in_history_keys (l : list ApiResponse.t) (n : Z) (side : bool) :
  In (n, side)
     (flat_map (fun item => [(ApiResponse.id item, true);
                             (ApiResponse.id item, false)]) l) ->
  In n (map ApiResponse.id l).
Proof.
  induction l as [|item l IH]; [intros []|].
  cbn [flat_map app map]. intros [H|[H|H]].
  - left. congruence.
  - left. congruence.
  - right. now apply IH.
Qed.

Lemma history_keys_NoDup (l : list ApiResponse.t) :
  NoDup (map ApiResponse.id l) ->
  NoDup (flat_map (fun item => [(ApiResponse.id item, true);
                                (ApiResponse.id item, false)]) l).
Proof.
  induction l as [|item l IH]; intros H; [constructor|].
  inversion H as [|? ? Hnot Hrest]; subst.
  cbn [flat_map app]. constructor.
  - intros [Heq|Hin]; [discriminate|].
    apply Hnot. eapply in_history_keys. exact Hin.
  - constructor; [|now apply IH].
    intros Hin. apply Hnot. eapply in_history_keys. exact Hin.
Qed.

(** X10.  The keys under which ChatPopup renders a freshly fetched history
    are pairwise distinct, provided the items have pairwise distinct [id]s
    and none of them is 0 (an [id] of 0 gives way to the position in the
    list). *)
Theorem history_entries_have_distinct_keys (history : list ApiResponse.t) :
  NoDup (map ApiResponse.id history) ->
  Forall (fun item => ApiResponse.id item <> 0) history ->
  NoDup (ChatPopup.keys (Chat.formattedHistory history)).
Proof.
  intros Hids Hnonzero.
  unfold ChatPopup.keys, Chat.formattedHistory.
  change (fun a b => ApiResponse.id a - ApiResponse.id b)
    with (compare_by ApiResponse.id).
  pose proof (Array_sort_Permutation _ ApiResponse.id history) as HP.
  rewrite keys_from_history
    by (eapply Permutation_Forall; [exact HP|exact Hnonzero]).
  apply history_keys_NoDup.
  eapply Permutation_NoDup; [|exact Hids].
  now apply Permutation_map.
Qed.

Lemma history_entries_have_distinct_keys_witness :
  NoDup (map ApiResponse.id
             [ApiResponse.mk 3 "C" "D" "u" "t3" None;
              ApiResponse.mk 1 "A" "B" "u" "t1" None]) /\
  Forall (fun item => ApiResponse.id item <> 0)
         [ApiResponse.mk 3 "C" "D" "u" "t3" None;
          ApiResponse.mk 1 "A" "B" "u" "t1" None] /\
  NoDup (ChatPopup.keys
           (Chat.formattedHistory
              [ApiResponse.mk 3 "C" "D" "u" "t3" None;
               ApiResponse.mk 1 "A" "B" "u" "t1" None])).
Proof.
  assert (Hids : NoDup (map ApiResponse.id
                            [ApiResponse.mk 3 "C" "D" "u" "t3" None;
                             ApiResponse.mk 1 "A" "B" "u" "t1" None])).
  { cbn. repeat constructor; cbn; intuition discriminate. }
  assert (Hnonzero : Forall (fun item => ApiResponse.id item <> 0)
                            [ApiResponse.mk 3 "C" "D" "u" "t3" None;
                             ApiResponse.mk 1 "A" "B" "u" "t1" None]).
  { repeat constructor; cbn; discriminate. }
  split; [exact Hids|]. split; [exact Hnonzero|].
  apply (history_entries_have_distinct_keys _ Hids Hnonzero).
Defined.

(** An entry made by [sendMessage] has no [id] and is keyed by its
    position, which may be the [id] of a history item: after the history
    with the ids 1 and 4 has been fetched, the user entry of the next message
    stands at position 4 and shares its key with the question entry of the
    item 4. *)
Example sent_entry_may_share_a_key :
  ChatPopup.keys
    (Chat.messages
       (final
          (run 9 (Chat.sendMessage sample_toISOString (Some "token") "When?")
               (final
                  (run 0 (Chat.fetchHistory (Some "token") false)
                       Chat.initial
                       [(5, HistoryAnswer
                              (Fulfilled
                                 [ApiResponse.mk 1 "A" "B" "u" "t1" None;
                                  ApiResponse.mk 4 "C" "D" "u" "t4"
                                                 None]))]))
               []))) =
  [(1, true); (1, false); (4, true); (4, false); (4, true)].
Proof. reflexivity. Qed.

Lemma run_ret (St A : Type) (now : Z) (s : St) (a : A)
      (answers : list (Z * Answer)) :
  run now (Ret a) s answers = mkRun s [] (Completed a).
Proof. destruct answers; reflexivity. Qed.

(** X11.  A submit with nothing to send, or while an answer is awaited, does
    nothing: when the input is blank after trimming, or the loading indicator
    is up, [handleSubmit] returns at once, whatever [sendMessage] is; no
    request is issued, and the transcript and the input are as they were. *)
Theorem handleSubmit_ignores_blank_input_and_double_submit
        (trim : string -> string)
        (sendMessage : string -> Async Chat.State unit)
        (inputMessage : string) (isLoading : bool)
        (s : ChatPopup.State) (now : Z) (answers : list (Z * Answer)) :
  trim inputMessage = EmptyString \/ isLoading = true ->
  run now (ChatPopup.handleSubmit trim sendMessage inputMessage isLoading)
      s answers =
  mkRun s [] (Completed tt).
Proof.
  intros H. unfold ChatPopup.handleSubmit.
  destruct H as [H|H]; rewrite H; cbn [truthy String.eqb negb orb].
  - apply run_ret.
  - rewrite orb_true_r. apply run_ret.
Qed.

Lemma handleSubmit_ignores_blank_input_and_double_submit_witness :
  ((fun typed : string => typed) "When?" = EmptyString \/ true = true) /\
  run 0 (ChatPopup.handleSubmit
           (fun typed => typed)
           (Chat.sendMessage sample_toISOString (Some "token"))
           "When?" true)
      (ChatPopup.mkState (Chat.mkState [] true true) "When?") [] =
  mkRun (ChatPopup.mkState (Chat.mkState [] true true) "When?") []
        (Completed tt).
Proof.
  assert (H : (fun typed : string => typed) "When?" = EmptyString \/
              true = true) by (right; reflexivity).
  split; [exact H|].
  apply (handleSubmit_ignores_blank_input_and_double_submit
           (fun typed => typed)
           (Chat.sendMessage sample_toISOString (Some "token"))
           "When?" true
           (ChatPopup.mkState (Chat.mkState [] true true) "When?") 0 [] H).
Defined.

(** X12.  A submit that goes through: when the input is not blank after
    trimming and the loading indicator is down, [handleSubmit] empties the
    input and calls [sendMessage] with the trimmed text.  At once the
    transcript ends with the user entry of the trimmed text, the loading
    indicator is up and the request for that text is pending; a second
    submit made from the next render is therefore ignored. *)
Theorem handleSubmit_sends_the_trimmed_input
        (trim : string -> string) (toISOString : Z -> string)
        (token : option string) (inputMessage : string)
        (s : ChatPopup.State) (now : Z) :
  trim inputMessage <> EmptyString ->
  let r := run now (ChatPopup.handleSubmit
                      trim (Chat.sendMessage toISOString token)
                      inputMessage false) s [] in
  outcome r = Pending (RaceSendChatMessage (trim inputMessage) token) /\
  requests r = [RaceSendChatMessage (trim inputMessage) token] /\
  ChatPopup.inputMessage (final r) = EmptyString /\
  Chat.messages (ChatPopup.chat (final r)) =
  (Chat.messages (ChatPopup.chat s)
   ++ [Chat.userMessage toISOString (trim inputMessage) now])%list /\
  Chat.isLoading (ChatPopup.chat (final r)) = true /\
  (forall typed now' answers,
      run now' (ChatPopup.handleSubmit
                  trim (Chat.sendMessage toISOString token) typed
                  (Chat.isLoading (ChatPopup.chat (final r))))
          (final r) answers =
      mkRun (final r) [] (Completed tt)).
Proof.
  intros H. cbv zeta. unfold ChatPopup.handleSubmit.
  rewrite truthy_Some by exact H.
  cbn. repeat split.
  intros typed now' answers. rewrite orb_true_r. apply run_ret.
Qed.

Lemma handleSubmit_sends_the_trimmed_input_witness :
  (fun typed : string => typed) "When?" <> EmptyString /\
  outcome
    (run 0 (ChatPopup.handleSubmit
              (fun typed => typed)
              (Chat.sendMessage sample_toISOString (Some "token"))
              "When?" false)
         (ChatPopup.mkState Chat.initial "When?") []) =
  Pending (RaceSendChatMessage "When?" (Some "token")).
Proof.
  assert (H : (fun typed : string => typed) "When?" <> EmptyString)
    by discriminate.
  split; [exact H|].
  apply (handleSubmit_sends_the_trimmed_input
           (fun typed => typed) sample_toISOString (Some "token") "When?"
           (ChatPopup.mkState Chat.initial "When?") 0 H).
Defined.

(** ** The session manager *)






(** X14.  A session survives a reload of the page until it expires.  After a
    successful [login], a provider created anew over the same session
    storage recovers, by its mount effect, the credential and the identity
    of the login when the clock is before [exp]; from [exp] on it recovers
    nothing and removes the stored entry. *)
Theorem session_survives_reload_until_expiry
        (jwtDecode : string -> Settled User.t) (base : option string)
      (writes : string -> option JsThrown)
        (email password : string) (s : Auth.Session) (now t now' : Z)
        (response : LoginResponse.t) (u : User.t) :
  truthy base = true ->
  LoginResponse.access_token response <> EmptyString ->
  jwtDecode (LoginResponse.access_token response) = Fulfilled u ->
  writes (LoginResponse.access_token response) = None ->
  let logged_in :=
    final (run now (Auth.login jwtDecode base writes email password) s
               [(t, LoginAnswer (Fulfilled response))]) in
  let reloaded :=
    final (run now' (Auth.mount_effect jwtDecode)
               (Auth.initial (Auth.sessionStorage logged_in)) []) in
  (now' < User.exp u * 1000 ->
   Auth.token reloaded = Auth.token logged_in /\
   Auth.user reloaded = Auth.user logged_in /\
   Auth.sessionStorage reloaded = Auth.sessionStorage logged_in /\
   Auth.user reloaded = Some u) /\
  (User.exp u * 1000 <= now' ->
   Auth.token reloaded = None /\
   Auth.user reloaded = None /\
   Auth.sessionStorage reloaded = None).
Proof.
  intros Hb Hne Hd Hw. cbv zeta.
  rewrite (login_succeeded jwtDecode base writes email password s now t
                           response u Hb Hd Hw).
  cbn [final Auth.sessionStorage Auth.token Auth.user].
  rewrite (mount_effect_decoded
             jwtDecode (LoginResponse.access_token response) now' u Hne Hd).
  cbn [final].
  destruct (User.exp u * 1000 >? now') eqn:E.
  - apply Z.gtb_lt in E. split; [intros _; now cbn|intros H; lia].
  - rewrite Z.gtb_ltb in E. apply Z.ltb_ge in E.
    split; [intros H; lia|intros _; now cbn].
Qed.

Lemma session_survives_reload_until_expiry_witness :
  truthy (Some "http://localhost:8000") = true /\
  LoginResponse.access_token
    (LoginResponse.mk "header.fresh.signature" "bearer") <> EmptyString /\
  sample_jwtDecode
    (LoginResponse.access_token
       (LoginResponse.mk "header.fresh.signature" "bearer")) =
  Fulfilled (User.mk "student@example.edu" "student" 4102444800) /\
  storage_with_room
    (LoginResponse.access_token
       (LoginResponse.mk "header.fresh.signature" "bearer")) = None /\
  1754300900000 < 4102444800 * 1000 /\
  Auth.user
    (final
       (run 1754300900000 (Auth.mount_effect sample_jwtDecode)
            (Auth.initial
               (Auth.sessionStorage
                  (final
                     (run 1754300000000
                          (Auth.login sample_jwtDecode
                                      (Some "http://localhost:8000")
                                      storage_with_room
                                      "student@example.edu" "secret")
                          (Auth.initial None)
                          [(1754300000300,
                            LoginAnswer
                              (Fulfilled
                                 (LoginResponse.mk "header.fresh.signature"
                                                   "bearer")))]))))
            [])) =
  Some (User.mk "student@example.edu" "student" 4102444800).
Proof.
  assert (Hb : truthy (Some "http://localhost:8000") = true) by reflexivity.
  assert (Hne : LoginResponse.access_token
                  (LoginResponse.mk "header.fresh.signature" "bearer")
                <> EmptyString) by discriminate.
  assert (Hd : sample_jwtDecode
                 (LoginResponse.access_token
                    (LoginResponse.mk "header.fresh.signature" "bearer")) =
               Fulfilled (User.mk "student@example.edu" "student"
                                  4102444800)) by reflexivity.
  assert (Hw : storage_with_room
                 (LoginResponse.access_token
                    (LoginResponse.mk "header.fresh.signature" "bearer")) =
               None) by reflexivity.
  assert (Hlt : 1754300900000 < 4102444800 * 1000) by lia.
  repeat (split; [assumption|]).
  apply (proj1 (session_survives_reload_until_expiry
                  sample_jwtDecode (Some "http://localhost:8000")
                  storage_with_room
                  "student@example.edu" "secret" (Auth.initial None)
                  1754300000000 1754300000300 1754300900000
                  (LoginResponse.mk "header.fresh.signature" "bearer")
                  (User.mk "student@example.edu" "student" 4102444800)
                  Hb Hne Hd Hw) Hlt).
Defined.

(** X15.  Nothing of a session survives [logout].  Calling [logout] a second
    time changes nothing; the loading flag is not touched; and a provider
    created anew over the session storage that [logout] leaves recovers
    nothing: it ends logged out, with the loading flag down and without a
    request.  The same holds of a provider created over a session storage
    with no entry. *)
Theorem nothing_survives_logout
        (jwtDecode : string -> Settled User.t) (s : Auth.Session)
        (now now' : Z) :
  let logged_out := final (run now Auth.logout s []) in
  let reloaded :=
    run now' (Auth.mount_effect jwtDecode)
        (Auth.initial (Auth.sessionStorage logged_out)) [] in
  final (run now' Auth.logout logged_out []) = logged_out /\
  Auth.isLoading logged_out = Auth.isLoading s /\
  outcome reloaded = Completed tt /\
  requests reloaded = [] /\
  final reloaded = Auth.mkSession None None false None None /\
  reloaded = run now' (Auth.mount_effect jwtDecode) (Auth.initial None) [].
Proof. cbv zeta. cbn. repeat split. Qed.

(** ** services/api.ts *)

Lemma response_interceptor_cases (e : Api.AxiosError) :
  (Api.code e = Some "ECONNABORTED" /\
   Api.response_interceptor e =
   Api.mkAxiosError (Api.code e)
                    "Request timeout. Please check your connection."
                    (Api.response e)) \/
  (Api.code e = Some "ERR_NETWORK" /\
   Api.response_interceptor e =
   Api.mkAxiosError
     (Api.code e)
     "Network Error: Cannot reach the server. Please ensure the backend is running."
     (Api.response e)) \/
  (Api.code e <> Some "ECONNABORTED" /\
   Api.code e <> Some "ERR_NETWORK" /\
   Api.response_interceptor e =
   match Api.response e with
   | None =>
       Api.mkAxiosError
         (Api.code e)
         "No response from server. Please check if the backend is running."
         None
   | Some _ => e
   end).
Proof.
  unfold Api.response_interceptor.
  destruct (Api.code e) as [c|];
    [|right; right; repeat split; discriminate].
  destruct (String.eqb_spec c "ECONNABORTED") as [->|H1];
    [left; split; reflexivity|].
  destruct (String.eqb_spec c "ERR_NETWORK") as [->|H2];
    [right; left; split; reflexivity|].
  right; right. split; [congruence|]. split; [congruence|].
  revert H1 H2.
  generalize
    (match Api.response e with
     | None =>
         Api.mkAxiosError
           (Some c)
           "No response from server. Please check if the backend is running."
           None
     | Some _ => e
     end).
  generalize
    (Api.mkAxiosError (Some c)
                      "Request timeout. Please check your connection."
                      (Api.response e)).
  generalize
    (Api.mkAxiosError
       (Some c)
       "Network Error: Cannot reach the server. Please ensure the backend is running."
       (Api.response e)).
  intros network timeout other.
  repeat (match goal with
          | c : string |- _ => destruct c as [|[[] [] [] [] [] [] [] []] c]
          end; try reflexivity).
  all: intros H1 H2; exfalso; (now apply H1) || (now apply H2).
Qed.

(** X16.  The response interceptor only rewrites messages, and rewriting
    twice is rewriting once: it keeps the [code] and the [response] of the
    error, it leaves an error untouched when the server answered and the
    code is neither [ECONNABORTED] nor [ERR_NETWORK], and applied to its own
    result it changes nothing. *)
Theorem response_interceptor_is_idempotent (e : Api.AxiosError) :
  Api.response_interceptor (Api.response_interceptor e) =
  Api.response_interceptor e /\
  Api.code (Api.response_interceptor e) = Api.code e /\
  Api.response (Api.response_interceptor e) = Api.response e /\
  (Api.code e <> Some "ECONNABORTED" ->
   Api.code e <> Some "ERR_NETWORK" ->
   Api.response e <> None ->
   Api.response_interceptor e = e).
Proof.
  destruct (response_interceptor_cases e)
    as [(Hc & ->)|[(Hc & ->)|(H1 & H2 & ->)]].
  - rewrite Hc. repeat split; intros; congruence.
  - rewrite Hc. repeat split; intros; congruence.
  - destruct (Api.response e) as [status|] eqn:Hr.
    + destruct (response_interceptor_cases e)
        as [(Hc & _)|[(Hc & _)|(_ & _ & ->)]]; try congruence.
      rewrite Hr. repeat split; congruence.
    + split; [|repeat split; intros; congruence].
      destruct (response_interceptor_cases
                  (Api.mkAxiosError
                     (Api.code e)
                     "No response from server. Please check if the backend is running."
                     None))
        as [(Hc & _)|[(Hc & _)|(_ & _ & ->)]];
        [now cbn in Hc|now cbn in Hc|reflexivity].
Qed.

Lemma response_interceptor_is_idempotent_witness :
  Api.code unauthorized <> Some "ECONNABORTED" /\
  Api.code unauthorized <> Some "ERR_NETWORK" /\
  Api.response unauthorized <> None /\
  Api.response_interceptor unauthorized = unauthorized.
Proof.
  assert (H1 : Api.code unauthorized <> Some "ECONNABORTED") by discriminate.
  assert (H2 : Api.code unauthorized <> Some "ERR_NETWORK") by discriminate.
  assert (H3 : Api.response unauthorized <> None) by discriminate.
  repeat (split; [assumption|]).
  apply (proj2 (proj2 (proj2 (response_interceptor_is_idempotent
                                unauthorized))) H1 H2 H3).
Defined.

(** X17.  A request that the transport gives up on is not mistaken for the
    60-second timer.  When the request of [sendMessage] is rejected by axios
    with its own timeout ([ECONNABORTED]), with a network error, or with no
    response at all, the call shows the failure notice after the user entry
    and completes; the request is not issued a second time. *)
Theorem transport_failure_is_not_the_timer
        (toISOString : Z -> string) (token : option string)
        (message : string) (s : Chat.State) (now t : Z)
        (e : Api.AxiosError) :
  Api.code e = Some "ECONNABORTED" \/
  Api.code e = Some "ERR_NETWORK" \/
  Api.response e = None ->
  let r := run now (Chat.sendMessage toISOString token message) s
               [(t, ChatAnswer (Rejected (Api.rejection e)))] in
  Chat.is_timeout (Api.rejection e) = false /\
  outcome r = Completed tt /\
  requests r = [RaceSendChatMessage message token] /\
  map shown (Chat.messages (final r)) =
  (map shown (Chat.messages s)
   ++ [(true, message); (false, Chat.failure_notice)])%list.
Proof.
  intros H. cbv zeta.
  assert (Hnot : Chat.is_timeout (Api.rejection e) = false).
  { unfold Api.rejection.
    destruct (response_interceptor_cases e)
      as [(Hc & ->)|[(Hc & ->)|(H1 & H2 & ->)]]; try reflexivity.
    destruct H as [H|[H|H]]; try congruence.
    now rewrite H. }
  split; [exact Hnot|].
  unfold run, alone. cbn [map fst snd].
  rewrite sendMessage_settled_in_time by exact Hnot.
  cbn [final outcome requests at_race settled_message Chat.messages].
  split; [reflexivity|]. split; [reflexivity|].
  now rewrite <- app_assoc, map_app.
Qed.

Lemma transport_failure_is_not_the_timer_witness :
  (Api.code (Api.mkAxiosError (Some "ECONNABORTED")
                              "timeout of 10000ms exceeded" None) =
   Some "ECONNABORTED" \/
   Api.code (Api.mkAxiosError (Some "ECONNABORTED")
                              "timeout of 10000ms exceeded" None) =
   Some "ERR_NETWORK" \/
   Api.response (Api.mkAxiosError (Some "ECONNABORTED")
                                  "timeout of 10000ms exceeded" None) =
   None) /\
  requests
    (run 0 (Chat.sendMessage sample_toISOString (Some "token") "When?")
         Chat.initial
         [(10000,
           ChatAnswer
             (Rejected
                (Api.rejection
                   (Api.mkAxiosError (Some "ECONNABORTED")
                                     "timeout of 10000ms exceeded"
                                     None))))]) =
  [RaceSendChatMessage "When?" (Some "token")].
Proof.
  assert (H : Api.code (Api.mkAxiosError (Some "ECONNABORTED")
                                         "timeout of 10000ms exceeded" None) =
              Some "ECONNABORTED" \/
              Api.code (Api.mkAxiosError (Some "ECONNABORTED")
                                         "timeout of 10000ms exceeded" None) =
              Some "ERR_NETWORK" \/
              Api.response (Api.mkAxiosError (Some "ECONNABORTED")
                                             "timeout of 10000ms exceeded"
                                             None) = None)
    by (left; reflexivity).
  split; [exact H|].
  apply (transport_failure_is_not_the_timer
           sample_toISOString (Some "token") "When?" Chat.initial 0 10000
           (Api.mkAxiosError (Some "ECONNABORTED")
                             "timeout of 10000ms exceeded" None) H).
Defined.

(** X18.  What [login] shows when the server did not answer.  For an axios
    error with no response whose code is neither [ECONNABORTED] nor
    [ERR_NETWORK], the interceptor's message reaches the user under the
    general heading: the error field reads [Login failed: No response from
    server. Please check if the backend is running.] *)
Theorem login_reports_missing_response
        (jwtDecode : string -> Settled User.t) (base : option string)
      (writes : string -> option JsThrown)
        (email password : string) (s : Auth.Session) (now t : Z)
        (e : Api.AxiosError) :
  truthy base = true ->
  Api.code e <> Some "ECONNABORTED" ->
  Api.code e <> Some "ERR_NETWORK" ->
  Api.response e = None ->
  let r := run now (Auth.login jwtDecode base writes email password) s
               [(t, LoginAnswer (Rejected (Api.rejection e)))] in
  outcome r = Completed false /\
  Auth.error (final r) =
  Some "Login failed: No response from server. Please check if the backend is running.".
Proof.
  intros Hb H1 H2 Hr. cbv zeta.
  rewrite (login_caught jwtDecode base writes email password s now t
                        (Rejected (Api.rejection e)) (Api.rejection e) Hb
                        (or_introl eq_refl)).
  cbn [final outcome Auth.error]. split; [reflexivity|].
  unfold Api.rejection.
  destruct (response_interceptor_cases e)
    as [(Hc & _)|[(Hc & _)|(_ & _ & ->)]]; try congruence.
  rewrite Hr. reflexivity.
Qed.

Lemma login_reports_missing_response_witness :
  truthy (Some "http://localhost:8000") = true /\
  Api.code (Api.mkAxiosError (Some "ERR_CANCELED") "canceled" None) <>
  Some "ECONNABORTED" /\
  Api.code (Api.mkAxiosError (Some "ERR_CANCELED") "canceled" None) <>
  Some "ERR_NETWORK" /\
  Api.response (Api.mkAxiosError (Some "ERR_CANCELED") "canceled" None) =
  None /\
  outcome
    (run 0 (Auth.login sample_jwtDecode (Some "http://localhost:8000")
                       storage_with_room
                       "student@example.edu" "secret")
         (Auth.initial None)
         [(300, LoginAnswer
                  (Rejected
                     (Api.rejection
                        (Api.mkAxiosError (Some "ERR_CANCELED") "canceled"
                                          None))))]) =
  Completed false.
Proof.
  assert (Hb : truthy (Some "http://localhost:8000") = true) by reflexivity.
  assert (H1 : Api.code (Api.mkAxiosError (Some "ERR_CANCELED") "canceled"
                                          None) <> Some "ECONNABORTED")
    by discriminate.
  assert (H2 : Api.code (Api.mkAxiosError (Some "ERR_CANCELED") "canceled"
                                          None) <> Some "ERR_NETWORK")
    by discriminate.
  assert (Hr : Api.response (Api.mkAxiosError (Some "ERR_CANCELED")
                                              "canceled" None) = None)
    by reflexivity.
  repeat (split; [assumption|]).
  apply (login_reports_missing_response
           sample_jwtDecode (Some "http://localhost:8000")
           storage_with_room
           "student@example.edu" "secret" (Auth.initial None) 0 300
           (Api.mkAxiosError (Some "ERR_CANCELED") "canceled" None)
           Hb H1 H2 Hr).
Defined.

(** ** App *)

(** X19.  What the application shows.  A provider just created shows the
    spinner; once its mount effect has run it never does, and it shows the
    landing page, inside the chat provider, exactly when an identity was
    recovered, the login form otherwise.  While a [login] waits for the
    backend the spinner is shown.  When the [login] has settled, the landing
    page is shown if it answered [true].  If it answered [false] because the
    storage refused to keep a token that decodes, the landing page is shown
    all the same, the identity having been set before the write; after any
    other [false], what is shown depends on the identity held before the
    call: the login form when there was none.  After [logout] from a session
    whose loading flag is down the login form is shown. *)
Theorem app_shows_the_chat_only_with_an_identity
        (jwtDecode : string -> Settled User.t) (base : option string)
        (writes : string -> option JsThrown)
        (email password : string) (s : Auth.Session)
        (stored : option string) (now t : Z)
        (x : Settled LoginResponse.t) :
  App.screen (Auth.initial stored) = App.Spinner /\
  (let mounted :=
     final (run now (Auth.mount_effect jwtDecode) (Auth.initial stored) []) in
   App.screen mounted =
   match Auth.user mounted with
   | Some _ => App.LandingInChatProvider
   | None => App.LoginScreen
   end) /\
  (truthy base = true ->
   App.screen
     (final (run now (Auth.login jwtDecode base writes email password) s [])) =
   App.Spinner) /\
  (let r := run now (Auth.login jwtDecode base writes email password) s
                [(t, LoginAnswer x)] in
   (outcome r = Completed true ->
    App.screen (final r) = App.LandingInChatProvider) /\
   (write_refused jwtDecode base writes x ->
    outcome r = Completed false /\
    App.screen (final r) = App.LandingInChatProvider) /\
   (outcome r = Completed false ->
    ~ write_refused jwtDecode base writes x ->
    App.screen (final r) = App.AppContent (Auth.user s) false)) /\
  (Auth.isLoading s = false ->
   App.screen (final (run now Auth.logout s [])) = App.LoginScreen).
Proof.
  split; [reflexivity|].
  split.
  { cbv zeta.
    destruct stored as [saved|]; [|reflexivity].
    destruct (String.eqb_spec saved EmptyString) as [->|Hs]; [reflexivity|].
    destruct (jwtDecode saved) as [u|e] eqn:Hd.
    - rewrite (mount_effect_decoded jwtDecode saved now u Hs Hd).
      cbn [final]. now destruct (User.exp u * 1000 >? now).
    - now rewrite (mount_effect_undecodable jwtDecode saved now e Hs Hd). }
  split.
  { intros Hb. unfold run, alone, run_interleaved, Auth.login, Api.loginUser.
    rewrite Hb. reflexivity. }
  split.
  { cbv zeta. unfold write_refused.
    destruct (login_cases jwtDecode base writes x)
      as [Hb|(Hb & [(caught & Hx)|[(response & u & thrown & -> & Hd & Hw)
                                  |(response & u & -> & Hd & Hw)]])].
    - rewrite login_without_configuration by exact Hb.
      cbn [final outcome].
      split; [discriminate|]. split; [intros [Ht _]; congruence|].
      reflexivity.
    - rewrite (login_caught jwtDecode base writes email password s now t x
                            caught Hb Hx).
      cbn [final outcome].
      split; [discriminate|]. split; [|reflexivity].
      intros (_ & response & u & thrown & Hf & Hd & _).
      destruct Hx as [Hx|(response' & Hx & Hd')]; congruence.
    - rewrite (login_write_refused jwtDecode base writes email password s now
                                   t response u thrown Hb Hd Hw).
      cbn [final outcome].
      split; [discriminate|]. split; [intros _; now split|].
      intros _ Hn. exfalso. apply Hn.
      split; [exact Hb|]. now exists response, u, thrown.
    - rewrite (login_succeeded jwtDecode base writes email password s now t
                               response u Hb Hd Hw).
      cbn [final outcome].
      split; [reflexivity|]. split; [|discriminate].
      intros (_ & response' & u' & thrown & Hf & Hd' & Hw'). congruence. }
  intros Hl. unfold App.screen. cbn. now rewrite Hl.
Qed.

Lemma app_shows_the_chat_only_with_an_identity_witness :
  write_refused
    sample_jwtDecode (Some "http://localhost:8000") storage_full
    (Fulfilled (LoginResponse.mk "header.fresh.signature" "bearer")) /\
  outcome
    (run 0 (Auth.login sample_jwtDecode (Some "http://localhost:8000")
                       storage_full
                       "student@example.edu" "secret")
         (Auth.mkSession None None false None None)
         [(300, LoginAnswer
                  (Fulfilled
                     (LoginResponse.mk "header.fresh.signature" "bearer")))]) =
  Completed false /\
  App.screen
    (final
       (run 0 (Auth.login sample_jwtDecode (Some "http://localhost:8000")
                          storage_full
                          "student@example.edu" "secret")
            (Auth.mkSession None None false None None)
            [(300, LoginAnswer
                     (Fulfilled
                        (LoginResponse.mk "header.fresh.signature"
                                          "bearer")))])) =
  App.LandingInChatProvider.
Proof.
  assert (Hw : write_refused
                 sample_jwtDecode (Some "http://localhost:8000") storage_full
                 (Fulfilled
                    (LoginResponse.mk "header.fresh.signature" "bearer"))).
  { split; [reflexivity|].
    exists (LoginResponse.mk "header.fresh.signature" "bearer"),
           (User.mk "student@example.edu" "student" 4102444800),
           (ErrorObject
              "Failed to execute 'setItem' on 'Storage': Setting the value of 'token' exceeded the quota.").
    repeat split. }
  split; [exact Hw|].
  apply (proj1 (proj2 (proj1 (proj2 (proj2 (proj2
           (app_shows_the_chat_only_with_an_identity
              sample_jwtDecode (Some "http://localhost:8000") storage_full
              "student@example.edu" "secret"
              (Auth.mkSession None None false None None)
              None 0 300
              (Fulfilled
                 (LoginResponse.mk "header.fresh.signature" "bearer")))))))) 
           Hw).
Defined.

(** ** The first revision of [fetchHistory] *)

(** X20.  The first revision of [fetchHistory] shows the history as
    received and never an empty transcript on failure.  With a credential
    and the flag down: when the request is fulfilled the transcript has one
    entry per item, on the bot side, in the order of the response (nothing is
    sorted, no question entry is made); when it is rejected the transcript is
    the two canned entries.  Either way the flag is up and the loading
    indicator down after the one request. *)
Theorem first_fetchHistory_shows_items_as_received
        (held : string) (s : Chat.State) (now t : Z)
        (x : Settled (list ApiResponse.t)) :
  held <> EmptyString ->
  let r := run now (ChatEarlier.first_fetchHistory (Some held) false) s
               [(t, HistoryAnswer x)] in
  outcome r = Completed tt /\
  requests r = [GetChatHistory held] /\
  Chat.historyFetched (final r) = true /\
  Chat.isLoading (final r) = false /\
  (forall history,
      x = Fulfilled history ->
      map shown (Chat.messages (final r)) =
      map (fun item => (false, ApiResponse.answer item)) history) /\
  (forall cause,
      x = Rejected cause ->
      Chat.messages (final r) = ChatEarlier.dummyMessages).
Proof.
  intros H. cbv zeta. unfold ChatEarlier.first_fetchHistory.
  rewrite truthy_Some by exact H. cbn [negb orb].
  destruct x as [history|cause]; cbn.
  - do 4 (split; [reflexivity|]).
    split; [|intros cause Hx; discriminate].
    intros history' Hx. inversion Hx; subst history'.
    unfold ChatEarlier.first_formattedHistory. now rewrite map_map.
  - do 4 (split; [reflexivity|]).
    split; [intros history Hx; discriminate|reflexivity].
Qed.

Lemma first_fetchHistory_shows_items_as_received_witness :
  "token" <> EmptyString /\
  map shown
      (Chat.messages
         (final
            (run 0 (ChatEarlier.first_fetchHistory (Some "token") false)
                 Chat.initial
                 [(5, HistoryAnswer
                        (Fulfilled
                           [ApiResponse.mk 3 "C" "D" "u" "t3" None;
                            ApiResponse.mk 1 "A" "B" "u" "t1" None]))]))) =
  map (fun item => (false, ApiResponse.answer item))
      [ApiResponse.mk 3 "C" "D" "u" "t3" None;
       ApiResponse.mk 1 "A" "B" "u" "t1" None].
Proof.
  assert (H : "token" <> EmptyString) by discriminate.
  split; [exact H|].
  apply (proj1 (proj2 (proj2 (proj2 (proj2
           (first_fetchHistory_shows_items_as_received
              "token" Chat.initial 0 5
              (Fulfilled [ApiResponse.mk 3 "C" "D" "u" "t3" None;
                          ApiResponse.mk 1 "A" "B" "u" "t1" None])
              H)))))
           _ eq_refl).
Defined.

(** ** The earlier [sendMessage] *)

(** X21.  In the two earlier revisions the entry of the user's own message
    is out of reach of the replacement: it carries an empty [answer], so
    when the race of a call run on its own is lost to the timer and the
    re-issued request settles, the user entry is still where it was put,
    whatever the message (the text of the notice included), and the entry
    after it is the bot entry of the response or the failure notice. *)
Theorem earlier_user_entry_is_never_replaced
        (toISOString : Z -> string) (token : option string)
        (message : string) (s : Chat.State) (now t1 t2 : Z)
        (x : Settled ChatResponse.t) :
  let r := run now (ChatEarlier.sendMessage toISOString token message) s
               [(t1, timed_out); (t2, ChatAnswer x)] in
  outcome r = Completed tt /\
  nth_error (Chat.messages (final r)) (length (Chat.messages s)) =
  Some (ChatEarlier.userMessage toISOString message now) /\
  nth_error (Chat.messages (final r)) (length (Chat.messages s) + 1) =
  Some (match x with
        | Fulfilled response =>
            ChatEarlier.botMessage toISOString response t2
        | Rejected _ => Chat.errorMessage toISOString message t2
        end).
Proof.
  cbv zeta.
  assert (Hrun :
    run now (ChatEarlier.sendMessage toISOString token message) s
        [(t1, timed_out); (t2, ChatAnswer x)] =
    mkRun (Chat.mkState
             (Chat.replace_placeholder
                (match x with
                 | Fulfilled response =>
                     ChatEarlier.botMessage toISOString response t2
                 | Rejected _ => Chat.errorMessage toISOString message t2
                 end)
                ((Chat.messages s
                  ++ [ChatEarlier.userMessage toISOString message now])
                 ++ [Chat.timeoutMessage toISOString message t1]))
             false (Chat.historyFetched s))
          [RaceSendChatMessage message token; SendChatMessage message token]
          (Completed tt)) by (destruct x; reflexivity).
  rewrite Hrun. cbn [final outcome Chat.messages].
  split; [reflexivity|].
  rewrite !replace_placeholder_nth, nth_error_after_two.
  rewrite nth_error_app1 by (rewrite length_app; simpl; lia).
  rewrite nth_error_app2, Nat.sub_diag by lia.
  split; reflexivity.
Qed.

(** ** History loading and the popup *)

(** X22.  While the history loads nothing can be submitted.  Between the
    call of [fetchHistory] (with a credential and the flag down) and the
    settlement of its request, the transcript and the flag are as they were
    and the loading indicator is up, so a submit made from a render of that
    state is ignored, whatever was typed. *)
Theorem no_submit_while_history_loads
        (trim : string -> string)
        (sendMessage : string -> Async Chat.State unit)
        (held : string) (s : Chat.State) (now now' : Z)
        (typed : string) (answers : list (Z * Answer)) :
  held <> EmptyString ->
  let loading := run now (Chat.fetchHistory (Some held) false) s [] in
  outcome loading = Pending (GetChatHistory held) /\
  Chat.messages (final loading) = Chat.messages s /\
  Chat.historyFetched (final loading) = Chat.historyFetched s /\
  Chat.isLoading (final loading) = true /\
  run now' (ChatPopup.handleSubmit
              trim sendMessage typed (Chat.isLoading (final loading)))
      (ChatPopup.mkState (final loading) typed) answers =
  mkRun (ChatPopup.mkState (final loading) typed) [] (Completed tt).
Proof.
  intros H. cbv zeta. unfold Chat.fetchHistory.
  rewrite truthy_Some by exact H. cbn [negb orb].
  cbn [run run_interleaved alone map run_sync run_among try_finally
       try_catch bind Chat.setIsLoading set Api.getChatHistory final outcome
       Chat.messages Chat.historyFetched Chat.isLoading].
  do 4 (split; [reflexivity|]).
  unfold ChatPopup.handleSubmit. rewrite orb_true_r. apply run_ret.
Qed.

Lemma no_submit_while_history_loads_witness :
  "token" <> EmptyString /\
  Chat.isLoading
    (final (run 0 (Chat.fetchHistory (Some "token") false) Chat.initial [])) =
  true.
Proof.
  assert (H : "token" <> EmptyString) by discriminate.
  split; [exact H|].
  apply (no_submit_while_history_loads
           (fun typed => typed)
           (Chat.sendMessage sample_toISOString (Some "token"))
           "token" Chat.initial 0 1 "When?" [] H).
Defined.
